(** * SadGPT: the Reddit crawler of [data_download.py]

    A shallow embedding of class [RedditLoader]: the token exchange, the two
    batch fetchers, the pagination loop of [get_all_data] and
    [make_dataframe], followed by the properties of the crawl.

    The network is a script: the n-th HTTP call of a run receives the n-th
    entry of [upstream], whatever the request was, and every request is
    appended to the log [net].  Standard output is the list [stdout].

    [save_data], the script under [__main__] and the chatbot of [chat.py]
    follow, the text pipeline of the chatbot being a parameter. *)

From Stdlib Require Import ZArith String Ascii Lia.
From stdpp Require Import base strings gmap list pretty.

Local Open Scope string_scope.
Local Open Scope list_scope.

(** ** Python values, as [json.load] and [Response.json] build them

    Numbers are integers only.  An object keeps its items in order and
    [dict_get] reads the first item of a key. *)

#[local] Set Warnings "-register-all".

Inductive value :=
  | VNone
  | VBool (b : bool)
  | VInt (z : Z)
  | VStr (s : string)
  | VList (l : list value)
  | VDict (d : list (string * value)).

(** Every exception here derives from Python's [Exception]; [ValueError]
    covers a body that is not JSON, [RequestException] a failed transfer,
    [OSError] a file that cannot be opened. *)
Inductive exn :=
  | KeyError (key : value)
  | IndexError
  | TypeError
  | ValueError
  | RequestException
  | OSError
  | Exception (msg : string).

Inductive result (A : Type) :=
  | Ok (a : A)
  | Raise (e : exn).
Arguments Ok {A} a.
Arguments Raise {A} e.

Fixpoint dict_get (k : string) (d : list (string * value)) : option value :=
  match d with
  | [] => None
  | (k', v) :: d' => if String.eqb k k' then Some v else dict_get k d'
  end.

(** [bool(v)], as in [if before:]. *)
Definition truthy (v : value) : bool :=
  match v with
  | VNone => false
  | VBool b => b
  | VInt z => negb (z =? 0)%Z
  | VStr s => negb (String.eqb s "")
  | VList l => negb (Nat.eqb (length l) 0)
  | VDict d => negb (Nat.eqb (length d) 0)
  end.

(** [v[k]] for a string key. *)
Definition getitem (v : value) (k : string) : result value :=
  match v with
  | VDict d => match dict_get k d with
               | Some x => Ok x
               | None => Raise (KeyError (VStr k))
               end
  | _ => Raise TypeError
  end.

(** Position [i] of a sequence of [n] items, negative indices counted from
    the end. *)
Definition py_index (n : nat) (i : Z) : option nat :=
  let j := (if i <? 0 then Z.of_nat n + i else i)%Z in
  if ((0 <=? j) && (j <? Z.of_nat n))%Z then Some (Z.to_nat j) else None.

Definition char_str (c : ascii) : value := VStr (String c EmptyString).

(** [v[i]] for an integer index. *)
Definition getitem_int (v : value) (i : Z) : result value :=
  match v with
  | VList l => match py_index (length l) i with
               | Some j => match l !! j with
                           | Some x => Ok x
                           | None => Raise IndexError
                           end
               | None => Raise IndexError
               end
  | VStr s => match py_index (String.length s) i with
              | Some j => match String.get j s with
                          | Some c => Ok (char_str c)
                          | None => Raise IndexError
                          end
              | None => Raise IndexError
              end
  | VDict _ => Raise (KeyError (VInt i))
  | _ => Raise TypeError
  end.

Definition is_str (k : string) (v : value) : bool :=
  match v with
  | VStr s => String.eqb s k
  | _ => false
  end.

(** [k in v] for a string [k]: a key of a dict, an item of a list, a
    substring of a string. *)
Definition contains (k : string) (v : value) : result bool :=
  match v with
  | VDict d => Ok (bool_decide (is_Some (dict_get k d)))
  | VList l => Ok (existsb (is_str k) l)
  | VStr s => Ok (bool_decide (is_Some (String.index 0 k s)))
  | _ => Raise TypeError
  end.

(** The items [for x in v] runs through. *)
Definition py_iter (v : value) : result (list value) :=
  match v with
  | VList l => Ok l
  | VStr s => Ok (char_str <$> list_ascii_of_string s)
  | VDict d => Ok ((λ kv, VStr kv.1) <$> d)
  | _ => Raise TypeError
  end.

(** ['bearer ' + v]. *)
Definition str_add (s : string) (v : value) : result string :=
  match v with
  | VStr t => Ok (s +:+ t)
  | _ => Raise TypeError
  end.

(** ** Requests and responses *)

Inductive verb := GET | POST.

(** The four URLs of the module, the f-strings kept with their arguments. *)
Inductive endpoint :=
  | access_token_url
  | me_url
  | listing_url (subreddit sort_by : string)
  | comments_url (post_id : value).

Record request := {
  method : verb;
  url : endpoint;
  req_headers : gmap string string;
  params : gmap string value;
  auth : option (value * value);
  form : gmap string value }.

Record response := {
  status_code : Z;
  json : result value }.

(** ** The loader, the world and the monad of its methods *)

Record RedditLoader := {
  config : value;
  headers : gmap string string }.

Inductive line :=
  | Text (s : string)
  | ShowExn (e : exn)
  | ShowValue (v : value).

Record world := {
  self : RedditLoader;
  net : list request;
  stdout : list line }.

Definition M (A : Type) : Type := world → result A * world.

Definition ret {A} (a : A) : M A := λ w, (Ok a, w).

Definition bind {A B} (m : M A) (k : A → M B) : M B :=
  λ w, match m w with
       | (Ok a, w') => k a w'
       | (Raise e, w') => (Raise e, w')
       end.

Definition raise {A} (e : exn) : M A := λ w, (Raise e, w).

Definition lift {A} (r : result A) : M A := λ w, (r, w).

Notation "'let*' x ':=' m 'in' k" := (bind m (λ x, k))
  (at level 10, x name, m at level 100, k at level 200, only parsing).

Definition print (l : line) : M unit :=
  λ w, (Ok tt, {| self := self w; net := net w; stdout := stdout w ++ [l] |}).

Definition get_self : M RedditLoader := λ w, (Ok (self w), w).

Definition set_self (o : RedditLoader) : M unit :=
  λ w, (Ok tt, {| self := o; net := net w; stdout := stdout w |}).

(** A [for] loop that rebinds one local. *)
Fixpoint for_each {A B} (body : B → A → M B) (xs : list A) (acc : B) : M B :=
  match xs with
  | [] => ret acc
  | x :: xs' => let* acc' := body acc x in for_each body xs' acc'
  end.

(** A row is the three-item list both fetchers append. *)
Record row := {
  col0 : value;
  col1 : value;
  col2 : value }.

Record DataFrame := {
  columns : list string;
  rows : list row }.

(** ** The methods of [RedditLoader] *)

Section Loader.

(** [upstream n]: what the n-th HTTP call of the run receives, a response
    or the exception [requests] raises.  [json_file path]: the parsed
    content of the credentials file. *)
Variable upstream : nat → result response.
Variable json_file : string → result value.

Definition send (r : request) : M response :=
  λ w, (upstream (length (net w)),
        {| self := self w; net := net w ++ [r]; stdout := stdout w |}).

(** [requests.get(uri, headers=h, params=p)] *)
Definition requests_get (uri : endpoint) (h : gmap string string)
    (p : gmap string value) : M response :=
  send {| method := GET; url := uri; req_headers := h; params := p;
          auth := None; form := ∅ |}.

(** [requests.post(uri, auth=a, data=d, headers=h)] *)
Definition requests_post (uri : endpoint) (a : value * value)
    (d : gmap string value) (h : gmap string string) : M response :=
  send {| method := POST; url := uri; req_headers := h; params := ∅;
          auth := Some a; form := d |}.

Definition get_token : M value :=
  let* o := get_self in
  let* client_id := lift (getitem (config o) "client_id") in
  let* secret_token := lift (getitem (config o) "secret_token") in
  let* username := lift (getitem (config o) "username") in
  let* password := lift (getitem (config o) "password") in
  let data : gmap string value :=
    <["password" := password]>
      (<["username" := username]> {["grant_type" := VStr "password"]}) in
  let* o := get_self in
  let* res := requests_post access_token_url (client_id, secret_token) data
                (headers o) in
  λ w, match (let* body := lift (json res) in
              lift (getitem body "access_token")) w with
       | (Raise (KeyError _), w') =>
           (let* body := lift (json res) in
            let* _ := print (ShowValue body) in
            raise (Exception "Invalid credentials")) w'
       | other => other
       end.

Definition __init__ (path : string) : M unit :=
  let* cfg := lift (json_file path) in
  let* o := get_self in
  let* _ := set_self {| config := cfg; headers := headers o |} in
  let* o := get_self in
  let* _ := set_self {| config := config o;
                        headers := {["User-Agent" := "MyBot/0.0.1"]} |} in
  let* token := get_token in
  let* bearer := lift (str_add "bearer " token) in
  let* o := get_self in
  let* _ := set_self {| config := config o;
                        headers := <["Authorization" := bearer]> (headers o) |} in
  let* o := get_self in
  let* res := requests_get me_url (headers o) ∅ in
  if (status_code res =? 200)%Z then print (Text "Success authenticated")
  else ret tt.

(** [params['before'] = before] under [if before:] *)
Definition with_before (before : value) (p : gmap string value)
    : gmap string value :=
  if truthy before then <["before" := before]> p else p.

Definition get_single_batch_post_from_reddit (subreddit sort_by : string)
    (limit before : value) : M (list row) :=
  let uri := listing_url subreddit sort_by in
  let params : gmap string value :=
    with_before before (<["raw_json" := VInt 1]> {["limit" := limit]}) in
  let* o := get_self in
  let* res := requests_get uri (headers o) params in
  let* raw_data := lift (json res) in
  let* d := lift (getitem raw_data "data") in
  let* children := lift (getitem d "children") in
  let* posts := lift (py_iter children) in
  for_each (λ data post,
      let* pd := lift (getitem post "data") in
      let* name := lift (getitem pd "name") in
      let* pd := lift (getitem post "data") in
      let* title := lift (getitem pd "title") in
      let* pd := lift (getitem post "data") in
      let* selftext := lift (getitem pd "selftext") in
      ret (data ++ [{| col0 := name; col1 := title; col2 := selftext |}]))
    posts [].

(** The body of [for comment in raw_comments[1]['data']['children']]. *)
Definition add_comment (post_name post_title : value) (data : list row)
    (comment : value) : M (list row) :=
  let* cd := lift (getitem comment "data") in
  let* has_body := lift (contains "body" cd) in
  if has_body : bool then
    let* cd := lift (getitem comment "data") in
    let* body := lift (getitem cd "body") in
    ret (data ++ [{| col0 := post_name; col1 := post_title; col2 := body |}])
  else ret data.

(** The body of [for post in raw_data['data']['children']] in comment
    mode. *)
Definition add_comments_of_post (sort_by : string) (data : list row)
    (post : value) : M (list row) :=
  let* pd := lift (getitem post "data") in
  let* post_name := lift (getitem pd "name") in
  let* pd := lift (getitem post "data") in
  let* post_title := lift (getitem pd "title") in
  let* pd := lift (getitem post "data") in
  let* post_id := lift (getitem pd "id") in
  let uri := comments_url post_id in
  let params : gmap string value :=
    <["sort" := VStr sort_by]>
      (<["raw_json" := VInt 1]> {["limit" := VInt 5]}) in
  let* o := get_self in
  let* res := requests_get uri (headers o) params in
  let* raw_comments := lift (json res) in
  let* tree := lift (getitem_int raw_comments 1) in
  let* d := lift (getitem tree "data") in
  let* children := lift (getitem d "children") in
  let* comments := lift (py_iter children) in
  for_each (add_comment post_name post_title) comments data.

Definition get_single_batch_post_comment_from_reddit
    (subreddit sort_by : string) (limit before : value) : M (list row) :=
  let uri := listing_url subreddit "top" in
  let params : gmap string value :=
    with_before before
      (<["t" := VStr "all"]> (<["raw_json" := VInt 1]> {["limit" := limit]})) in
  let* o := get_self in
  let* res := requests_get uri (headers o) params in
  let* raw_data := lift (json res) in
  let* d := lift (getitem raw_data "data") in
  let* children := lift (getitem d "children") in
  let* posts := lift (py_iter children) in
  for_each (add_comments_of_post sort_by) posts [].

Definition make_dataframe (type : string) (data : list row) : M DataFrame :=
  if String.eqb type "post" then
    ret {| columns := ["name"; "title"; "text"]; rows := data |}
  else if String.eqb type "comment" then
    ret {| columns := ["name"; "title"; "comment"]; rows := data |}
  else raise (Exception "Invalid type").

(** The locals of the loop of [get_all_data].  [batch] is bound only when
    [verbose] holds and is read only then; it is 0 until its first
    increment. *)
Record locals := {
  data : list row;
  before : value;
  batch : nat;
  data_size : nat }.

Inductive flow :=
  | Continue (l : locals)
  | Break (l : locals).

(** The choice of [get_data] at the head of [get_all_data]; [None] is the
    branch that raises. *)
Definition select_get_data (type : string)
    : option (string → string → value → value → M (list row)) :=
  if String.eqb type "post" then Some get_single_batch_post_from_reddit
  else if String.eqb type "comment" then
    Some get_single_batch_post_comment_from_reddit
  else None.

Definition batch_message (batch n : nat) : line :=
  Text ("Batch " +:+ pretty batch +:+ " complete, loaded " +:+ pretty n
        +:+ " posts.").

(** One pass through the body of [while True], its [try] and its
    [except].  [data += get_data(...)] leaves [data] as it was when the
    call raises; [data[-1]] raises [IndexError] on an empty list, after
    the append. *)
Definition iteration (get_data : value → M (list row)) (verbose : bool)
    (l : locals) : world → flow * world :=
  λ w,
    match get_data (before l) w with
    | (Ok got, w1) =>
        let data' := data l ++ got in
        match last data' with
        | Some r =>
            let before' := col0 r in
            let batch' := if verbose then S (batch l) else batch l in
            let w2 := if verbose
                      then (print (batch_message batch' (length data')) w1).2
                      else w1 in
            if Nat.eqb (length data') (data_size l) then
              (Break {| data := data'; before := before'; batch := batch';
                        data_size := data_size l |}, w2)
            else
              (Continue {| data := data'; before := before'; batch := batch';
                           data_size := length data' |}, w2)
        | None =>
            (Break {| data := data'; before := before l; batch := batch l;
                      data_size := data_size l |},
             (print (ShowExn IndexError) w1).2)
        end
    | (Raise e, w1) => (Break l, (print (ShowExn e) w1).2)
    end.

(** [while True:] run for at most [fuel] passes; [None] when the loop has
    not left by then. *)
Fixpoint while_true (fuel : nat) (body : locals → world → flow * world)
    (l : locals) (w : world) : option (locals * world) :=
  match fuel with
  | O => None
  | S fuel' =>
      match body l w with
      | (Continue l', w') => while_true fuel' body l' w'
      | (Break l', w') => Some (l', w')
      end
  end.

Definition loop_entry : locals :=
  {| data := []; before := VNone; batch := 0; data_size := 0 |}.

Definition announce (verbose : bool) (w : world) : world :=
  if verbose then (print (Text "Getting data...") w).2 else w.

Definition get_all_data (fuel : nat) (type subreddit sort_by : string)
    (verbose : bool) : world → option (result DataFrame * world) :=
  λ w,
    match select_get_data type with
    | Some get_data =>
        match while_true fuel
                (iteration (get_data subreddit sort_by (VInt 100)) verbose)
                loop_entry (announce verbose w) with
        | Some (l, w') => Some (make_dataframe type (data l) w')
        | None => None
        end
    | None => Some (Raise (Exception "Invalid type"), w)
    end.

(** The calls of [get_data] the loop makes from [l] and [w], each with the
    cursor it is given and what it returns, at most [n] of them. *)
Fixpoint fetch_log (get_data : value → M (list row)) (verbose : bool)
    (n : nat) (l : locals) (w : world) : list (value * result (list row)) :=
  match n with
  | O => []
  | S n' =>
      (before l, (get_data (before l) w).1) ::
      match iteration get_data verbose l w with
      | (Continue l', w') => fetch_log get_data verbose n' l' w'
      | (Break _, _) => []
      end
  end.

(** The calls of a whole crawl. *)
Definition crawl_log (n : nat) (type subreddit sort_by : string)
    (verbose : bool) (w : world) : list (value * result (list row)) :=
  match select_get_data type with
  | Some get_data =>
      fetch_log (get_data subreddit sort_by (VInt 100)) verbose n
        loop_entry (announce verbose w)
  | None => []
  end.

End Loader.

(** ** Reading a log of calls *)

(** A call ends the crawl when it raises or returns no row. *)
Definition ends_crawl (o : result (list row)) : Prop :=
  match o with
  | Ok [] => True
  | Ok _ => False
  | Raise _ => True
  end.

Definition fetched (o : result (list row)) : list row :=
  match o with
  | Ok b => b
  | Raise _ => []
  end.

Definition all_fetched (tr : list (value * result (list row))) : list row :=
  flat_map (λ co, fetched co.2) tr.

Definition batch_sizes (tr : list (value * result (list row))) : list nat :=
  (λ co, length (fetched co.2)) <$> tr.

(** The loop keeps [data_size] equal to [len(data)] at its head. *)
Definition sized (l : locals) : Prop := data_size l = length (data l).

(** ** What a run shows besides its standard output *)

Definition with_stdout (out : list line) (w : world) : world :=
  {| self := self w; net := net w; stdout := out |}.

(** A computation that leaves the loader alone and neither reads nor writes
    standard output. *)
Definition quiet {A} (m : M A) : Prop :=
  ∀ w, self (m w).2 = self w ∧
       ∀ out, m (with_stdout out w) = ((m w).1, with_stdout out (m w).2).

Definition same_run (w w' : world) : Prop :=
  self w = self w' ∧ net w = net w'.

Definition same_locals (l l' : locals) : Prop :=
  data l = data l' ∧ before l = before l' ∧ data_size l = data_size l'.

Definition same_flow (f f' : flow * world) : Prop :=
  match f, f' with
  | (Continue l, w), (Continue l', w') => same_locals l l' ∧ same_run w w'
  | (Break l, w), (Break l', w') => same_locals l l' ∧ same_run w w'
  | _, _ => False
  end.

(** The returned value, the loader and the requests of a crawl. *)
Definition shown (r : option (result DataFrame * world))
    : option (result DataFrame * RedditLoader * list request) :=
  (λ rw, (rw.1, self rw.2, net rw.2)) <$> r.

(** The identifier a returned batch leaves as the next cursor. *)
Definition last_id (o : result (list row)) : option value :=
  match o with
  | Ok b => col0 <$> last b
  | Raise _ => None
  end.

(** No two calls of a log are given the same cursor. *)
Definition never_reuses_cursor (tr : list (value * result (list row))) : Prop :=
  NoDup tr.*1.

(** ** Reading responses

    What the fetchers look for in a response, written in [result] alone. *)

Definition rbind {A B} (r : result A) (k : A → result B) : result B :=
  match r with
  | Ok a => k a
  | Raise e => Raise e
  end.

(** The items at [data.children] of a listing. *)
Definition listed (r : result response) : result (list value) :=
  rbind r (λ res, rbind (json res) (λ raw,
    rbind (getitem raw "data") (λ d,
      rbind (getitem d "children") py_iter))).

(** The items at [[1].data.children] of a comment tree. *)
Definition comment_tree (r : result response) : result (list value) :=
  rbind r (λ res, rbind (json res) (λ raw,
    rbind (getitem_int raw 1) (λ tree,
      rbind (getitem tree "data") (λ d,
        rbind (getitem d "children") py_iter)))).

Record post_view := {
  post_name : value;
  post_title : value;
  post_id : value }.

(** [post] is an item whose [data] holds a name, a title and an id. *)
Definition views (post : value) (v : post_view) : Prop :=
  ∃ pd, getitem post "data" = Ok pd ∧
        getitem pd "name" = Ok (post_name v) ∧
        getitem pd "title" = Ok (post_title v) ∧
        getitem pd "id" = Ok (post_id v).

(** [c] is an item whose [data] is an object. *)
Definition has_data_object (c : value) : Prop :=
  ∃ fields, getitem c "data" = Ok (VDict fields).

(** The [body] field of a comment item, when its data carries one. *)
Definition comment_body (c : value) : option value :=
  match getitem c "data" with
  | Ok (VDict fields) => dict_get "body" fields
  | _ => None
  end.

(** One row per item with a body, in the order of the items. *)
Definition comment_rows (v : post_view) (cs : list value) : list row :=
  omap (λ c, (λ b, {| col0 := post_name v; col1 := post_title v; col2 := b |})
               <$> comment_body c) cs.

(** The request for the comments of a post. *)
Definition comments_request (h : gmap string string) (sort_by : string)
    (v : post_view) : request :=
  {| method := GET; url := comments_url (post_id v); req_headers := h;
     params := <["sort" := VStr sort_by]>
                 (<["raw_json" := VInt 1]> {["limit" := VInt 5]});
     auth := None; form := ∅ |}.

(** The value at [access_token] of the answer of the token endpoint. *)
Definition token_of (r : result response) : result value :=
  rbind r (λ res, rbind (json res) (λ body, getitem body "access_token")).

(** From [w] to [w'] one request was sent, the POST of the token exchange. *)
Definition only_token_request (w w' : world) : Prop :=
  ∃ req, net w' = net w ++ [req] ∧ method req = POST ∧
         url req = access_token_url.

(** A request to one of the two listing endpoints. *)
Definition is_fetch (r : request) : bool :=
  match url r with
  | listing_url _ _ | comments_url _ => true
  | _ => false
  end.

(** ** Sample responses and scripts *)

Definition post_item (name title selftext id : string) : value :=
  VDict [("kind", VStr "t3");
         ("data", VDict [("id", VStr id); ("name", VStr name);
                         ("title", VStr title); ("selftext", VStr selftext)])].

Definition listing_page (items : list value) : result response :=
  Ok {| status_code := 200;
        json := Ok (VDict [("kind", VStr "Listing");
                           ("data", VDict [("children", VList items)])]) |}.

Definition credentials : value :=
  VDict [("client_id", VStr "id"); ("secret_token", VStr "secret");
         ("username", VStr "user"); ("password", VStr "pass")].

(** A loader as [__init__] leaves it, before any crawl. *)
Definition ready : world :=
  {| self := {| config := credentials;
                headers := <["Authorization" := "bearer t0k3n"]>
                             {["User-Agent" := "MyBot/0.0.1"]} |};
     net := [];
     stdout := [] |}.

(** One page of two posts, then an empty page. *)
Definition two_then_empty (n : nat) : result response :=
  match n with
  | 0 => listing_page [post_item "t3_a" "A" "x" "a"; post_item "t3_b" "B" "" "b"]
  | _ => listing_page []
  end.

(** One page of three posts, then a failed request. *)
Definition three_then_error (n : nat) : result response :=
  match n with
  | 0 => listing_page [post_item "t3_a" "A" "x" "a";
                       post_item "t3_b" "B" "y" "b";
                       post_item "t3_c" "C" "z" "c"]
  | _ => Raise RequestException
  end.

(** The same one-post page twice, then an empty page. *)
Definition repeating (n : nat) : result response :=
  match n with
  | 0 | 1 => listing_page [post_item "t3_a" "A" "x" "a"]
  | _ => listing_page []
  end.

(** Nothing to fetch. *)
Definition nothing (n : nat) : result response := listing_page [].

Definition comment_item (body : string) : value :=
  VDict [("kind", VStr "t1");
         ("data", VDict [("id", VStr "c"); ("body", VStr body)])].

(** The placeholder a comment tree ends with. *)
Definition more_item : value :=
  VDict [("kind", VStr "more");
         ("data", VDict [("count", VInt 12); ("children", VList [])])].

Definition comment_page (items : list value) : result response :=
  Ok {| status_code := 200;
        json := Ok (VList [VDict [("kind", VStr "Listing")];
                           VDict [("kind", VStr "Listing");
                                  ("data", VDict [("children", VList items)])]]) |}.

(** Two posts, the comments of the first with a placeholder among them,
    no comment under the second. *)
Definition two_posts_with_comments (n : nat) : result response :=
  match n with
  | 0 => listing_page [post_item "t3_a" "A" "x" "a"; post_item "t3_b" "B" "" "b"]
  | 1 => comment_page [comment_item "first"; more_item; comment_item "second"]
  | 2 => comment_page []
  | _ => listing_page []
  end.

(** A token endpoint that refuses the credentials. *)
Definition refused (n : nat) : result response :=
  Ok {| status_code := 401; json := Ok (VDict [("error", VStr "invalid_grant")]) |}.

(** A token endpoint that grants a token, then the identity check. *)
Definition granting (n : nat) : result response :=
  match n with
  | 0 => Ok {| status_code := 200;
               json := Ok (VDict [("access_token", VStr "t0k3n");
                                  ("token_type", VStr "bearer")]) |}
  | _ => Ok {| status_code := 200; json := Ok (VDict [("name", VStr "user")]) |}
  end.

Definition credentials_file (path : string) : result value :=
  if String.eqb path "reddit_cred.json" then Ok credentials else Raise OSError.

(** A whole session: the token, the identity check, a page of two posts,
    then empty pages. *)
Definition whole_session (n : nat) : result response :=
  match n with
  | 0 | 1 => granting n
  | 2 => listing_page [post_item "t3_a" "A" "x" "a"; post_item "t3_b" "B" "" "b"]
  | _ => listing_page []
  end.

(** The world before [RedditLoader(path)]. *)
Definition blank : world :=
  {| self := {| config := VNone; headers := ∅ |}; net := []; stdout := [] |}.

(** ** Further views of requests and answers *)

(** The world after the requests [rs] have gone out. *)
Definition sent (w : world) (rs : list request) : world :=
  {| self := self w; net := net w ++ rs; stdout := stdout w |}.

(** The request of [get_single_batch_post_from_reddit]. *)
Definition post_request (h : gmap string string) (subreddit sort_by : string)
    (limit before : value) : request :=
  {| method := GET; url := listing_url subreddit sort_by; req_headers := h;
     params := with_before before
                 (<["raw_json" := VInt 1]> {["limit" := limit]});
     auth := None; form := ∅ |}.

(** The listing request of [get_single_batch_post_comment_from_reddit]. *)
Definition top_request (h : gmap string string) (subreddit : string)
    (limit before : value) : request :=
  {| method := GET; url := listing_url subreddit "top"; req_headers := h;
     params := with_before before
                 (<["t" := VStr "all"]>
                    (<["raw_json" := VInt 1]> {["limit" := limit]}));
     auth := None; form := ∅ |}.

(** The row of a post item: its name, its title and its selftext. *)
Definition post_row (post : value) : result row :=
  rbind (getitem post "data") (λ pd,
    rbind (getitem pd "name") (λ name,
      rbind (getitem pd "title") (λ title,
        rbind (getitem pd "selftext") (λ selftext,
          Ok {| col0 := name; col1 := title; col2 := selftext |})))).

(** The rows of the items of a page, up to the first item without one. *)
Fixpoint post_rows (posts : list value) : result (list row) :=
  match posts with
  | [] => Ok []
  | post :: posts' =>
      rbind (post_row post) (λ r,
        rbind (post_rows posts') (λ rs, Ok (r :: rs)))
  end.

(** A request a fetcher may send for a loader with headers [h]. *)
Definition fetch_request_of (h : gmap string string) (r : request) : Prop :=
  method r = GET ∧ req_headers r = h ∧ auth r = None ∧ form r = ∅ ∧
  is_fetch r = true.

(** From [w] to [w'] the loader was kept and fetch requests only went out,
    after those of [w]. *)
Definition only_fetches (w w' : world) : Prop :=
  self w' = self w ∧
  ∃ rs, net w' = net w ++ rs ∧
        Forall (fetch_request_of (headers (self w))) rs.

(** Two posts, the comments of the first, then a refusal. *)
Definition comments_then_refusal (n : nat) : result response :=
  match n with
  | 0 => listing_page [post_item "t3_a" "A" "x" "a"; post_item "t3_b" "B" "" "b"]
  | 1 => comment_page [comment_item "first"]
  | _ => Raise RequestException
  end.

(** What a crawl prints for the calls of [tr], from batch number [batch]
    and a table of [size] rows. *)
Fixpoint progress (verbose : bool) (batch size : nat)
    (tr : list (value * result (list row))) : list line :=
  match tr with
  | [] => []
  | (_, Raise e) :: tr' => ShowExn e :: progress verbose batch size tr'
  | (_, Ok got) :: tr' =>
      let size' := (size + length got)%nat in
      let batch' := if verbose then S batch else batch in
      (if Nat.eqb size' 0 then [ShowExn IndexError]
       else if verbose then [batch_message batch' size'] else [])
      ++ progress verbose batch' size' tr'
  end.

(** A listing that answers every request with the same one-post page. *)
Definition same_page_forever (n : nat) : result response :=
  listing_page [post_item "t3_a" "A" "x" "a"].

(** The request of the token exchange. *)
Definition token_request (client_id secret_token username password : value)
    : request :=
  {| method := POST; url := access_token_url;
     req_headers := {["User-Agent" := "MyBot/0.0.1"]}; params := ∅;
     auth := Some (client_id, secret_token);
     form := <["password" := password]>
               (<["username" := username]>
                  {["grant_type" := VStr "password"]}) |}.

(** The request of the identity check. *)
Definition me_request (h : gmap string string) : request :=
  {| method := GET; url := me_url; req_headers := h; params := ∅;
     auth := None; form := ∅ |}.

(** The headers of a loader that holds [token]. *)
Definition bearer_headers (token : string) : gmap string string :=
  <["Authorization" := "bearer " +:+ token]> {["User-Agent" := "MyBot/0.0.1"]}.

(** The keys [get_token] reads from the credentials, in its order. *)
Definition credential_keys : list string :=
  ["client_id"; "secret_token"; "username"; "password"].

(** ** Saving a crawl

    [save_data] and the script under [__main__].  A file is kept as the
    table written to it; [writable] tells the paths [to_csv] can write. *)

Section Saving.

Variable upstream : nat → result response.
Variable json_file : string → result value.
Variable writable : string → bool.

(** [df.to_csv(path, index=False)] *)
Definition to_csv (df : DataFrame) (path : string)
    (disk : gmap string DataFrame) : result unit * gmap string DataFrame :=
  if writable path then (Ok tt, <[path := df]> disk) else (Raise OSError, disk).

Definition save_data (fuel : nat) (type subreddit sort_by path : string)
    (verbose : bool) (w : world) (disk : gmap string DataFrame)
    : option (result unit * (world * gmap string DataFrame)) :=
  match get_all_data upstream fuel type subreddit sort_by verbose w with
  | Some (Ok df, w') =>
      let rd := to_csv df path disk in Some (rd.1, (w', rd.2))
  | Some (Raise e, w') => Some (Raise e, (w', disk))
  | None => None
  end.


End Saving.

(** An identity check that answers 403 after a granted token. *)
Definition unverified (n : nat) : result response :=
  match n with
  | 0 => granting 0
  | _ => Ok {| status_code := 403; json := Ok (VDict [("error", VInt 403)]) |}
  end.

(** A token granted, then a transfer that fails. *)
Definition check_fails (n : nat) : result response :=
  match n with
  | 0 => granting 0
  | _ => Raise RequestException
  end.

(** Credentials without a password. *)
Definition incomplete_file (path : string) : result value :=
  Ok (VDict [("client_id", VStr "id"); ("secret_token", VStr "secret");
             ("username", VStr "user")]).


(** A post item whose data lacks [selftext]. *)
Definition bare_item (name title : string) : value :=
  VDict [("kind", VStr "t3");
         ("data", VDict [("name", VStr name); ("title", VStr title)])].

(** The object an endpoint answers when it refuses a request. *)
Definition too_many_requests : result response :=
  Ok {| status_code := 429;
        json := Ok (VDict [("message", VStr "Too Many Requests");
                           ("error", VInt 429)]) |}.

(** A page with a post that lacks [selftext] after a sound one. *)
Definition page_with_bare_item (n : nat) : result response :=
  listing_page [post_item "t3_a" "A" "x" "a"; bare_item "t3_b" "B";
                post_item "t3_c" "C" "z" "c"].

(** An endpoint that refuses every request. *)
Definition throttled (n : nat) : result response := too_many_requests.

(** ** The chatbot of [chat.py]

    A Python string is the list of its code points. *)

Module Chat.

Definition str : Type := list N.

(** A literal of ASCII characters. *)
Definition lit (s : string) : str := N_of_ascii <$> list_ascii_of_string s.

Definition newline : N := 10.
Definition space : N := 32.
(** ['\xa0'], the no-break space. *)
Definition nbsp : N := 160.

Fixpoint starts_with (p s : str) : bool :=
  match p, s with
  | [], _ => true
  | x :: p', y :: s' => N.eqb x y && starts_with p' s'
  | _ :: _, [] => false
  end.

(** [s.replace(old, new)] for a non-empty [old], read from left to right;
    [skip] counts the characters of a found [old] still to pass. *)
Fixpoint replace_from (skip : nat) (old new s : str) : str :=
  match s with
  | [] => []
  | c :: s' =>
      match skip with
      | S k => replace_from k old new s'
      | O =>
          if starts_with old s
          then new ++ replace_from (length old - 1) old new s'
          else c :: replace_from 0 old new s'
      end
  end.

Definition replace (old new s : str) : str := replace_from 0 old new s.

(** [s.split(sep)] for a non-empty [sep]; [cur] is the piece being read. *)
Fixpoint split_from (skip : nat) (sep cur s : str) : list str :=
  match s with
  | [] => [cur]
  | c :: s' =>
      match skip with
      | S k => split_from k sep cur s'
      | O =>
          if starts_with sep s
          then cur :: split_from (length sep - 1) sep [] s'
          else split_from 0 sep (cur ++ [c]) s'
      end
  end.

Definition split (sep s : str) : list str := split_from 0 sep [] s.

Definition CHAT_TEMPLATE : str :=
  lit "This is a conversion between a really sad chatbot named SadGPT and a user"
  ++ [newline] ++ lit "###"
  ++ [newline] ++ lit "[User]: Hi."
  ++ [newline] ++ lit "[EdgeGPT]: Hello!"
  ++ [newline] ++ lit "###"
  ++ [newline] ++ lit "[User]: What is your name?"
  ++ [newline] ++ lit "[EdgeGPT]: My name is SadGPT.".

Record ChatBot := { chat_history : str }.

Section Bot.

(** [isspace c]: whether [str.split()] takes [c] for white space.
    [chatbot prompt max_length]: the [generated_text] of the first sequence
    the pipeline returns, or the exception it raises. *)
Variable isspace : N → bool.
Variable chatbot : str → nat → result str.

(** [len(s.split())]: the number of runs of characters that are no white
    space. *)
Fixpoint count_words (in_word : bool) (s : str) : nat :=
  match s with
  | [] => 0
  | c :: s' =>
      if isspace c then count_words false s'
      else ((if in_word then 0 else 1) + count_words true s')%nat
  end.

Definition __init__ : ChatBot := {| chat_history := CHAT_TEMPLATE |}.

Definition generate_reply (text : str) (self : ChatBot)
    : result str * ChatBot :=
  let prompt :=
    chat_history self ++ (lit "###" ++ [newline] ++ lit "[User]: ") ++ text
    ++ ([newline] ++ lit "[EdgeGPT]: ") in
  let prompt_len := count_words false prompt in
  match chatbot prompt (4 * prompt_len) with
  | Ok response =>
      let response :=
        default [] (head (split [newline]
          (default [] (last (split (lit "[EdgeGPT]: ") response))))) in
      let response := replace [nbsp] [] response in
      let response := replace (lit "  ") [] response in
      (Ok response, {| chat_history := prompt ++ response |})
  | Raise e => (Raise e, self)
  end.

End Bot.

End Chat.

(** The part of [s] before its first [x]. *)
Fixpoint until (x : N) (s : Chat.str) : Chat.str :=
  match s with
  | [] => []
  | c :: s' => if N.eqb x c then [] else c :: until x s'
  end.

(** No two neighbours of [s] are both [x]. *)
Fixpoint no_twin (x : N) (s : Chat.str) : Prop :=
  match s with
  | a :: (b :: _) as t => ¬ (a = x ∧ b = x) ∧ no_twin x t
  | _ => True
  end.

(** White space, for the samples: the blank and the line feed. *)
Definition blank_or_newline (c : N) : bool := N.eqb c 32 || N.eqb c 10.

(** A pipeline that repeats the prompt and goes on with [more]. *)
Definition echo_then (more : Chat.str) (prompt : Chat.str) (max_length : nat)
    : result Chat.str :=
  Ok (prompt ++ more).

(** * Properties *)

(** ** One pass of the loop *)

Section Loop.

Context (get_data : value → M (list row)) (verbose : bool).

Lemma last_app_nonempty (xs ys : list row) :
  ys ≠ [] → last (xs ++ ys) = last ys.
Proof.
  intros Hne. rewrite last_app. destruct (last ys) as [r|] eqn:Hl; [done|].
  apply last_None in Hl. contradiction.
Qed.

Lemma iteration_continue l w l' w' :
  sized l →
  iteration get_data verbose l w = (Continue l', w') →
  ∃ got r, (get_data (before l) w).1 = Ok got ∧ got ≠ [] ∧
           last got = Some r ∧ data l' = data l ++ got ∧
           before l' = col0 r ∧ sized l'.
Proof.
  unfold iteration, sized. intros Hs.
  destruct (get_data (before l) w) as [[got|e] w1]; simpl; [|discriminate].
  destruct (last (data l ++ got)) as [r|] eqn:Hl; [|discriminate].
  destruct (Nat.eqb_spec (length (data l ++ got)) (data_size l)) as [He|Hne];
    [discriminate|].
  intros [= <- <-]. simpl.
  assert (got ≠ []) as Hgot.
  { intros ->. rewrite app_nil_r in Hne. congruence. }
  exists got, r. rewrite last_app_nonempty in Hl by done. done.
Qed.

Lemma iteration_break l w l' w' :
  sized l →
  iteration get_data verbose l w = (Break l', w') →
  ends_crawl (get_data (before l) w).1 ∧
  data l' = data l ++ fetched (get_data (before l) w).1.
Proof.
  unfold iteration, sized. intros Hs.
  destruct (get_data (before l) w) as [[got|e] w1]; simpl.
  - destruct (last (data l ++ got)) as [r|] eqn:Hl.
    + destruct (Nat.eqb_spec (length (data l ++ got)) (data_size l))
        as [He|Hne]; [|discriminate].
      intros [= <- <-]. simpl. split; [|done].
      rewrite length_app in He. destruct got; [done|simpl in He; lia].
    + intros [= <- <-]. simpl. split; [|done].
      apply last_None in Hl. by destruct (data l), got.
  - intros [= <- <-]. by rewrite app_nil_r.
Qed.

Lemma iteration_ends l w :
  sized l →
  ends_crawl (get_data (before l) w).1 →
  ∃ l' w', iteration get_data verbose l w = (Break l', w').
Proof.
  unfold iteration, sized. intros Hs.
  destruct (get_data (before l) w) as [[got|e] w1]; simpl.
  - destruct got; [|done]. intros _. rewrite app_nil_r.
    destruct (last (data l)); [|eauto].
    rewrite Hs, Nat.eqb_refl. eauto.
  - eauto.
Qed.

(** A log that reaches a closing call at position [k] belongs to a loop
    that leaves within [n] passes, with every fetched row appended. *)
Lemma while_true_leaves n : ∀ k l w c o,
  sized l →
  fetch_log get_data verbose n l w !! k = Some (c, o) →
  ends_crawl o →
  ∃ l' w', while_true n (iteration get_data verbose) l w = Some (l', w') ∧
           data l' = data l ++ all_fetched (fetch_log get_data verbose n l w) ∧
           length (fetch_log get_data verbose n l w) = S k.
Proof.
  induction n as [|n IH]; intros k l w c o Hs Hk Ho; [done|].
  simpl in Hk |- *. destruct k as [|k]; simpl in Hk.
  - injection Hk as <- <-.
    destruct (iteration_ends l w Hs Ho) as (l' & w' & Hit).
    rewrite Hit. exists l', w'.
    destruct (iteration_break _ _ _ _ Hs Hit) as [_ ->].
    unfold all_fetched. simpl. by rewrite app_nil_r.
  - destruct (iteration get_data verbose l w) as [[l1|l1] w1] eqn:Hit;
      [|done].
    destruct (iteration_continue _ _ _ _ Hs Hit)
      as (got & r & Hgot & _ & _ & Hd & _ & Hs1).
    destruct (IH k l1 w1 c o Hs1 Hk Ho) as (l' & w' & Hw & Hdata & Hlen).
    exists l', w'. split; [done|]. split; [|by rewrite Hlen].
    rewrite Hdata, Hd. unfold all_fetched. simpl. rewrite Hgot. simpl.
    by rewrite <- app_assoc.
Qed.

(** Whenever the loop leaves, its log ends with the only closing call. *)
Lemma while_true_log n : ∀ l w l' w',
  sized l →
  while_true n (iteration get_data verbose) l w = Some (l', w') →
  ∃ tr c o, fetch_log get_data verbose n l w = tr ++ [(c, o)] ∧
            ends_crawl o ∧
            Forall (λ co, ¬ ends_crawl co.2) tr ∧
            data l' = data l ++ all_fetched (tr ++ [(c, o)]).
Proof.
  induction n as [|n IH]; intros l w l' w' Hs Hw; [done|].
  simpl in Hw |- *.
  destruct (iteration get_data verbose l w) as [[l1|l1] w1] eqn:Hit.
  - destruct (iteration_continue _ _ _ _ Hs Hit)
      as (got & r & Hgot & Hne & _ & Hd & _ & Hs1).
    destruct (IH _ _ _ _ Hs1 Hw) as (tr & c & o & Htr & Ho & Hall & Hdata).
    exists ((before l, (get_data (before l) w).1) :: tr), c, o.
    rewrite Htr. split; [done|]. split; [done|]. split.
    + constructor; [|done]. simpl. rewrite Hgot.
      destruct got as [|x got]; [congruence|intros []].
    + rewrite Hdata, Hd. unfold all_fetched. simpl. rewrite Hgot. simpl.
      by rewrite <- app_assoc.
  - injection Hw as <- <-.
    destruct (iteration_break _ _ _ _ Hs Hit) as [Ho Hd].
    exists [], (before l), (get_data (before l) w).1.
    split; [done|]. split; [done|]. split; [constructor|].
    rewrite Hd. unfold all_fetched. simpl. by rewrite app_nil_r.
Qed.

(** More fuel does not change a loop that has left. *)
Lemma while_true_more n : ∀ m l w r,
  while_true n (iteration get_data verbose) l w = Some r →
  (n ≤ m)%nat →
  while_true m (iteration get_data verbose) l w = Some r.
Proof.
  induction n as [|n IH]; intros m l w r Hw Hle; [done|].
  destruct m as [|m]; [lia|]. simpl in Hw |- *.
  destruct (iteration get_data verbose l w) as [[l1|l1] w1]; [|done].
  apply IH; [done|lia].
Qed.

(** Each call after the first is given the first item of the last row of
    the call before it, which returned rows. *)
Lemma fetch_log_chain n : ∀ i l w c o c' o',
  sized l →
  fetch_log get_data verbose n l w !! i = Some (c, o) →
  fetch_log get_data verbose n l w !! S i = Some (c', o') →
  ∃ got r, o = Ok got ∧ last got = Some r ∧ c' = col0 r.
Proof.
  induction n as [|n IH]; intros i l w c o c' o' Hs Hi Hi'; [done|].
  simpl in Hi, Hi'.
  destruct (iteration get_data verbose l w) as [[l1|l1] w1] eqn:Hit;
    [|done].
  destruct (iteration_continue _ _ _ _ Hs Hit)
    as (got & r & Hgot & _ & Hl & _ & Hb & Hs1).
  destruct i as [|i]; simpl in Hi.
  - injection Hi as <- <-. exists got, r.
    destruct n as [|n]; [done|]. simpl in Hi'. injection Hi' as <- _.
    done.
  - by apply (IH i l1 w1 c o c' o').
Qed.

(** The cursors of a log: the one the loop starts from, then what each
    batch but the last leaves. *)
Lemma fetch_log_cursors n : ∀ l w,
  sized l → n ≠ 0%nat →
  (fetch_log get_data verbose n l w).*1 =
    before l ::
    omap (λ co, last_id co.2)
      (take (pred (length (fetch_log get_data verbose n l w)))
            (fetch_log get_data verbose n l w)).
Proof.
  induction n as [|n IH]; intros l w Hs Hn; [done|].
  cbn [fetch_log].
  destruct (iteration get_data verbose l w) as [[l1|l1] w1] eqn:Hit;
    [|done].
  destruct (iteration_continue _ _ _ _ Hs Hit)
    as (got & r & Hgot & _ & Hl & _ & Hb & Hs1).
  destruct n as [|n]; [done|].
  rewrite fmap_cons, (IH l1 w1 Hs1) by done.
  remember (fetch_log get_data verbose (S n) l1 w1) as rest eqn:Hrest.
  destruct rest as [|x rest]; [done|].
  simpl. rewrite Hgot. simpl. rewrite Hl. simpl. by rewrite Hb.
Qed.

Lemma fetch_log_head n l w c o :
  fetch_log get_data verbose n l w !! 0%nat = Some (c, o) → c = before l.
Proof. destruct n; [done|]. simpl. by intros [= <- _]. Qed.

End Loop.

(** ** Frame properties of the monad and of the fetchers *)

Section Frame.

Context (upstream : nat → result response).

Lemma quiet_ret {A} (a : A) : quiet (ret a).
Proof. by intros w. Qed.

Lemma quiet_lift {A} (r : result A) : quiet (lift r).
Proof. by intros w. Qed.

Lemma quiet_raise {A} (e : exn) : quiet (@raise A e).
Proof. by intros w. Qed.

Lemma quiet_get_self : quiet get_self.
Proof. by intros w. Qed.

Lemma quiet_send r : quiet (send upstream r).
Proof. by intros w. Qed.

Lemma quiet_bind {A B} (m : M A) (k : A → M B) :
  quiet m → (∀ a, quiet (k a)) → quiet (bind m k).
Proof.
  intros Hm Hk w. destruct (Hm w) as [Hs Hout]. unfold bind. split.
  - destruct (m w) as [[a|e] w1]; simpl in *; [|done].
    destruct (Hk a w1) as [Hs1 _]. congruence.
  - intros out. rewrite Hout.
    destruct (m w) as [[a|e] w1]; simpl; [|done].
    destruct (Hk a w1) as [_ Hout1]. rewrite Hout1. done.
Qed.

Lemma quiet_for_each {A B} (body : B → A → M B) xs :
  (∀ acc x, quiet (body acc x)) → ∀ acc, quiet (for_each body xs acc).
Proof.
  intros Hb. induction xs as [|x xs IH]; intros acc; simpl.
  - apply quiet_ret.
  - apply quiet_bind; [apply Hb|apply IH].
Qed.

Ltac quiet_step :=
  first [ apply quiet_ret | apply quiet_lift | apply quiet_raise
        | apply quiet_get_self | apply quiet_send
        | apply quiet_bind; [|intros ?]
        | apply quiet_for_each; intros ? ? ].

Lemma quiet_post subreddit sort_by limit before :
  quiet (get_single_batch_post_from_reddit upstream subreddit sort_by
           limit before).
Proof.
  unfold get_single_batch_post_from_reddit, requests_get.
  repeat quiet_step.
Qed.

Lemma quiet_comment subreddit sort_by limit before :
  quiet (get_single_batch_post_comment_from_reddit upstream subreddit
           sort_by limit before).
Proof.
  unfold get_single_batch_post_comment_from_reddit, add_comments_of_post,
    add_comment, requests_get.
  repeat quiet_step.
  match goal with |- quiet (if ?b then _ else _) => destruct b end;
    repeat quiet_step.
Qed.

Lemma quiet_selected type get_data subreddit sort_by limit before :
  select_get_data upstream type = Some get_data →
  quiet (get_data subreddit sort_by limit before).
Proof.
  unfold select_get_data.
  destruct (String.eqb type "post"); [intros [= <-]; apply quiet_post|].
  destruct (String.eqb type "comment"); [|done].
  intros [= <-]. apply quiet_comment.
Qed.

Lemma same_run_with_stdout w w' :
  same_run w w' → w' = with_stdout (stdout w') w.
Proof.
  destruct w, w'. unfold with_stdout, same_run. simpl.
  intros [Hs Hn]. by subst.
Qed.

Section Selected.

Context (get_data : value → M (list row)).
Hypothesis get_data_quiet : ∀ c, quiet (get_data c).

Lemma iteration_same v v' l l' w w' :
  same_locals l l' → same_run w w' →
  same_flow (iteration get_data v l w) (iteration get_data v' l' w').
Proof.
  intros (Hd & Hb & Hz) Hr.
  rewrite (same_run_with_stdout _ _ Hr). unfold iteration.
  rewrite <- Hb, <- Hd, <- Hz.
  destruct (get_data_quiet (before l) w) as [_ Hout]. rewrite Hout.
  destruct (get_data (before l) w) as [[got|e] w1]; simpl; [|done].
  destruct (last (data l ++ got)); [|done].
  destruct (Nat.eqb (length (data l ++ got)) (data_size l));
    by destruct v, v'.
Qed.

Lemma iteration_self v l w :
  self (iteration get_data v l w).2 = self w.
Proof.
  unfold iteration. destruct (get_data_quiet (before l) w) as [Hs _].
  destruct (get_data (before l) w) as [[got|e] w1]; simpl in *; [|done].
  destruct (last (data l ++ got)); [|done].
  destruct (Nat.eqb (length (data l ++ got)) (data_size l));
    by destruct v.
Qed.

Lemma while_true_same v v' n : ∀ l l' w w',
  same_locals l l' → same_run w w' →
  match while_true n (iteration get_data v) l w,
        while_true n (iteration get_data v') l' w' with
  | Some (a, u), Some (a', u') => same_locals a a' ∧ same_run u u'
  | None, None => True
  | _, _ => False
  end.
Proof.
  induction n as [|n IH]; intros l l' w w' Hl Hr; [done|]. simpl.
  pose proof (iteration_same v v' l l' w w' Hl Hr) as Hf.
  destruct (iteration get_data v l w) as [[l1|l1] w1],
           (iteration get_data v' l' w') as [[l1'|l1'] w1'];
    simpl in Hf; try done.
  destruct Hf as [Hl1 Hr1]. by apply IH.
Qed.

Lemma while_true_self v n : ∀ l w l' w',
  while_true n (iteration get_data v) l w = Some (l', w') →
  self w' = self w.
Proof.
  induction n as [|n IH]; intros l w l' w' Hw; [done|]. simpl in Hw.
  pose proof (iteration_self v l w) as Hs.
  destruct (iteration get_data v l w) as [[l1|l1] w1]; simpl in Hs.
  - rewrite <- Hs. by apply (IH l1 w1 l').
  - by injection Hw as <- <-.
Qed.

End Selected.

Lemma make_dataframe_pure type rs w :
  (make_dataframe type rs w).2 = w.
Proof.
  unfold make_dataframe.
  destruct (String.eqb type "post"); [done|].
  by destruct (String.eqb type "comment").
Qed.

Lemma make_dataframe_any_world type rs w w' :
  (make_dataframe type rs w).1 = (make_dataframe type rs w').1.
Proof.
  unfold make_dataframe.
  destruct (String.eqb type "post"); [done|].
  by destruct (String.eqb type "comment").
Qed.

Lemma announce_same v v' w : same_run (announce v w) (announce v' w).
Proof. by destruct v, v'. Qed.

Lemma length_all_fetched tr :
  length (all_fetched tr) = sum_list (batch_sizes tr).
Proof.
  induction tr as [|co tr IH]; [done|].
  unfold all_fetched, batch_sizes in *. simpl.
  by rewrite length_app, IH.
Qed.

Lemma sized_entry : sized loop_entry.
Proof. done. Qed.

End Frame.

(** ** The crawl of [get_all_data] *)

Section Crawl.

Context (upstream : nat → result response).

Lemma make_dataframe_selected type get_data :
  select_get_data upstream type = Some get_data →
  ∃ cols, ∀ rs w,
    make_dataframe type rs w = (Ok {| columns := cols; rows := rs |}, w).
Proof.
  unfold select_get_data, make_dataframe.
  destruct (String.eqb type "post"); [eauto|].
  destruct (String.eqb type "comment"); [eauto|done].
Qed.

(** A crawl whose log reaches a closing call returns a table of all rows
    fetched before it. *)
Lemma crawl_leaves n type subreddit sort_by verbose w k c o :
  crawl_log upstream n type subreddit sort_by verbose w !! k = Some (c, o) →
  ends_crawl o →
  ∃ cols w' tr,
    get_all_data upstream n type subreddit sort_by verbose w =
      Some (Ok {| columns := cols; rows := all_fetched tr ++ fetched o |}, w') ∧
    crawl_log upstream n type subreddit sort_by verbose w = tr ++ [(c, o)] ∧
    length tr = k ∧
    Forall (λ co, ¬ ends_crawl co.2) tr.
Proof.
  unfold crawl_log, get_all_data. intros Hk Ho.
  destruct (select_get_data upstream type) as [gd|] eqn:Hsel; [|done].
  destruct (make_dataframe_selected _ _ Hsel) as [cols Hmk].
  destruct (while_true_leaves _ verbose n k _ _ c o sized_entry Hk Ho)
    as (l' & w' & Hw & _ & Hlen).
  destruct (while_true_log _ verbose n _ _ _ _ sized_entry Hw)
    as (tr & c' & o' & Hlog & _ & Hall & Hdata).
  rewrite Hw, Hmk. rewrite Hlog in Hk, Hlen |- *.
  rewrite length_app in Hlen. simpl in Hlen.
  assert (length tr = k) as Hk' by lia.
  rewrite lookup_app_r, Hk', Nat.sub_diag in Hk by lia.
  injection Hk as -> ->.
  exists cols, w', tr. split; [|done].
  rewrite Hdata. unfold all_fetched. rewrite flat_map_app. simpl.
  by rewrite app_nil_r.
Qed.

(** A crawl that has returned returns the same with more fuel. *)
Lemma get_all_data_more n m type subreddit sort_by verbose w r :
  get_all_data upstream n type subreddit sort_by verbose w = Some r →
  (n ≤ m)%nat →
  get_all_data upstream m type subreddit sort_by verbose w = Some r.
Proof.
  unfold get_all_data. intros Hrun Hle.
  destruct (select_get_data upstream type) as [gd|]; [|done].
  destruct (while_true n _ _ _) as [lw|] eqn:Hw; [|done].
  by rewrite (while_true_more _ verbose n m _ _ lw Hw Hle).
Qed.

(** C1: the table [get_all_data] returns has as many rows as the batches
    of the crawl hold together, up to and including the first batch that
    is empty or whose fetch raises; the raising fetch adds none, and no
    call follows it. *)
Theorem get_all_data_size n type subreddit sort_by verbose w k c o :
  crawl_log upstream n type subreddit sort_by verbose w !! k = Some (c, o) →
  ends_crawl o →
  ∃ df w',
    (∀ m, (n ≤ m)%nat →
       get_all_data upstream m type subreddit sort_by verbose w =
         Some (Ok df, w')) ∧
    length (crawl_log upstream n type subreddit sort_by verbose w) = S k ∧
    Forall (λ co, ¬ ends_crawl co.2)
      (take k (crawl_log upstream n type subreddit sort_by verbose w)) ∧
    length (rows df) =
      sum_list (batch_sizes
                  (crawl_log upstream n type subreddit sort_by verbose w)).
Proof.
  intros Hk Ho.
  destruct (crawl_leaves _ _ _ _ _ _ _ _ _ Hk Ho)
    as (cols & w' & tr & Hrun & Hlog & Hlen & Hall).
  eexists _, w'. split; [intros m; by apply get_all_data_more|].
  rewrite Hlog. simpl.
  split; [rewrite length_app; simpl; lia|]. split.
  - by rewrite <- Hlen, take_app_length.
  - rewrite <- length_all_fetched. unfold all_fetched at 2.
    rewrite flat_map_app. simpl. by rewrite app_nil_r.
Qed.

(** C3: with a valid mode [get_all_data] returns a table whenever it
    returns, and when a fetch raises the table holds exactly the rows of
    the fetches before it, each of which returned rows. *)
Theorem get_all_data_catches type get_data subreddit sort_by verbose w :
  select_get_data upstream type = Some get_data →
  (∀ n r w',
     get_all_data upstream n type subreddit sort_by verbose w = Some (r, w') →
     ∃ df, r = Ok df) ∧
  (∀ n k c e,
     crawl_log upstream n type subreddit sort_by verbose w !! k
       = Some (c, Raise e) →
     ∃ df w',
       get_all_data upstream n type subreddit sort_by verbose w =
         Some (Ok df, w') ∧
       rows df =
         all_fetched
           (take k (crawl_log upstream n type subreddit sort_by verbose w)) ∧
       Forall (λ co, ∃ got, co.2 = Ok got ∧ got ≠ [])
         (take k (crawl_log upstream n type subreddit sort_by verbose w)) ∧
       length (crawl_log upstream n type subreddit sort_by verbose w) = S k).
Proof.
  intros Hsel. split.
  - intros n r w'. unfold get_all_data. rewrite Hsel.
    destruct (make_dataframe_selected _ _ Hsel) as [cols Hmk].
    destruct (while_true _ _ _ _) as [[l1 w1]|]; [|done].
    rewrite Hmk. intros [= <- _]. eauto.
  - intros n k c e Hk.
    destruct (crawl_leaves _ _ _ _ _ _ _ _ _ Hk I)
      as (cols & w' & tr & Hrun & Hlog & Hlen & Hall).
    eexists _, w'. split; [exact Hrun|]. rewrite Hlog. simpl.
    rewrite <- Hlen, take_app_length, app_nil_r.
    split; [done|]. split; [|rewrite length_app; simpl; lia].
    eapply Forall_impl; [exact Hall|]. intros [c' o'] Hne. simpl in *.
    destruct o' as [[|x got]|e']; simpl in Hne; [tauto| |tauto].
    by exists (x :: got).
Qed.

(** C10: when the first fetch returns no row the crawl makes that one
    call, catches the [IndexError] of [data[-1]], prints it and returns
    an empty table. *)
Theorem get_all_data_first_empty n type get_data subreddit sort_by verbose w :
  select_get_data upstream type = Some get_data →
  (get_data subreddit sort_by (VInt 100) VNone (announce verbose w)).1
    = Ok [] →
  n ≠ 0%nat →
  ∃ cols w',
    get_all_data upstream n type subreddit sort_by verbose w =
      Some (Ok {| columns := cols; rows := [] |}, w') ∧
    crawl_log upstream n type subreddit sort_by verbose w
      = [(VNone, Ok [])] ∧
    stdout w' = stdout (announce verbose w) ++ [ShowExn IndexError].
Proof.
  intros Hsel Hgot Hn. destruct n as [|n]; [done|].
  destruct (make_dataframe_selected _ _ Hsel) as [cols Hmk].
  destruct (quiet_selected _ _ _ subreddit sort_by (VInt 100) VNone Hsel
              (announce verbose w)) as [_ Hout].
  specialize (Hout (stdout (announce verbose w))).
  unfold get_all_data, crawl_log. rewrite Hsel. simpl.
  unfold iteration. simpl.
  destruct (get_data subreddit sort_by (VInt 100) VNone (announce verbose w))
    as [[got|e] w1] eqn:Hrun; simpl in Hgot; [|done].
  injection Hgot as ->. simpl. rewrite Hmk.
  exists cols. eexists. split; [done|]. split; [done|]. simpl.
  assert (stdout w1 = stdout (announce verbose w)) as ->; [|done].
  replace (with_stdout (stdout (announce verbose w)) (announce verbose w))
    with (announce verbose w) in Hout by (by destruct (announce verbose w)).
  rewrite Hrun in Hout. by injection Hout as ->.
Qed.

(** C2, as the loop has it: the first call is given no cursor, each
    later call the first item of the last row of the batch before it,
    and the cursors of a crawl are pairwise distinct whenever [None] and
    the identifiers closing the batches before the last are. *)
Theorem cursor_follows_last_row n type subreddit sort_by verbose w :
  (∀ c o,
     crawl_log upstream n type subreddit sort_by verbose w !! 0%nat
       = Some (c, o) → c = VNone) ∧
  (∀ i c o c' o',
     crawl_log upstream n type subreddit sort_by verbose w !! i
       = Some (c, o) →
     crawl_log upstream n type subreddit sort_by verbose w !! S i
       = Some (c', o') →
     ∃ got r, o = Ok got ∧ last got = Some r ∧ c' = col0 r) ∧
  (NoDup
     (VNone ::
      omap (λ co, last_id co.2)
        (take (pred (length
                 (crawl_log upstream n type subreddit sort_by verbose w)))
              (crawl_log upstream n type subreddit sort_by verbose w))) →
   never_reuses_cursor
     (crawl_log upstream n type subreddit sort_by verbose w)).
Proof.
  unfold crawl_log, never_reuses_cursor.
  destruct (select_get_data upstream type) as [gd|];
    [|split; [done|split; [done|intros _; constructor]]].
  split; [|split].
  - intros c o H0. by apply fetch_log_head in H0.
  - intros i c o c' o'. apply fetch_log_chain, sized_entry.
  - destruct n as [|n]; [intros _; constructor|].
    by rewrite (fetch_log_cursors _ verbose (S n) loop_entry _ sized_entry).
Qed.

End Crawl.

(** C2, where it fails: a listing that answers with the same one-post page
    twice makes the crawl send the cursor of that post twice. *)
Lemma cursor_reused :
  ¬ never_reuses_cursor
      (crawl_log repeating 3 "post" "askreddit" "new" false ready).
Proof.
  unfold never_reuses_cursor.
  assert ((crawl_log repeating 3 "post" "askreddit" "new" false ready).*1
          = [VNone; VStr "t3_a"; VStr "t3_a"]) as -> by (vm_compute; reflexivity).
  intros Hnd. apply NoDup_cons in Hnd as [_ Hnd].
  apply NoDup_cons in Hnd as [Hin _]. apply Hin. constructor.
Qed.

(** ** The verbose flag, the loader and the table *)

Section Table.

Context (upstream : nat → result response).

(** C7: two runs of [get_all_data] that differ only in [verbose] return
    the same value, leave the same loader and send the same requests;
    only standard output tells them apart. *)
Theorem verbose_only_prints n type subreddit sort_by w :
  shown (get_all_data upstream n type subreddit sort_by true w) =
  shown (get_all_data upstream n type subreddit sort_by false w).
Proof.
  unfold get_all_data.
  destruct (select_get_data upstream type) as [gd|] eqn:Hsel; [|done].
  destruct (make_dataframe_selected _ _ _ Hsel) as [cols Hmk].
  pose proof (while_true_same (gd subreddit sort_by (VInt 100))
                (λ c, quiet_selected _ _ _ _ _ _ c Hsel)
                true false n loop_entry loop_entry
                (announce true w) (announce false w)
                (conj eq_refl (conj eq_refl eq_refl))
                (announce_same true false w)) as Hsame.
  destruct (while_true n (iteration _ true) _ _) as [[a u]|],
           (while_true n (iteration _ false) _ _) as [[a' u']|];
    try done.
  destruct Hsame as [(Hd & _ & _) [Hs Hn]].
  rewrite !Hmk. unfold shown. simpl. by rewrite Hd, Hs, Hn.
Qed.

(** C8: a loader that [__init__] has built holds the two headers,
    [User-Agent] and the bearer [Authorization]; neither batch fetcher nor
    [get_all_data] changes the loader, its [config] and its [headers]. *)
Theorem loader_unchanged subreddit sort_by limit before w :
  (∀ json_file path w0,
     __init__ upstream json_file path w0 = (Ok tt, w) →
     ∃ token,
       headers (self w) =
         <["Authorization" := "bearer " +:+ token]>
           {["User-Agent" := "MyBot/0.0.1"]}) ∧
  self (get_single_batch_post_from_reddit upstream subreddit sort_by
          limit before w).2 = self w ∧
  self (get_single_batch_post_comment_from_reddit upstream subreddit
          sort_by limit before w).2 = self w ∧
  (∀ n type verbose r w',
     get_all_data upstream n type subreddit sort_by verbose w
       = Some (r, w') →
     self w' = self w).
Proof.
  split.
  { intros json_file path w0.
    unfold __init__, get_token, requests_post, requests_get, send, bind,
      lift, get_self, set_self, print, raise, ret, str_add. cbn beta iota.
    intros Hinit.
    repeat (case_match; simplify_eq/=; try done); eauto. }
  split; [apply quiet_post|]. split; [apply quiet_comment|].
  intros n type verbose r w'. unfold get_all_data.
  destruct (select_get_data upstream type) as [gd|] eqn:Hsel;
    [|by intros [= _ <-]].
  destruct (while_true _ _ _ _) as [[l1 w1]|] eqn:Hw; [|done].
  intros [= Hrun]. pose proof (make_dataframe_pure type (data l1) w1) as Hp.
  rewrite Hrun in Hp. simpl in Hp. subst w'.
  apply while_true_self in Hw;
    [|intros c; by apply (quiet_selected upstream type)].
  rewrite Hw. by destruct verbose.
Qed.

(** C6: [make_dataframe] names the columns after the mode and keeps the
    rows; any other mode raises and yields no table, in [make_dataframe]
    and at the head of [get_all_data], before any request. *)
Theorem make_dataframe_columns data w :
  make_dataframe "post" data w =
    (Ok {| columns := ["name"; "title"; "text"]; rows := data |}, w) ∧
  make_dataframe "comment" data w =
    (Ok {| columns := ["name"; "title"; "comment"]; rows := data |}, w) ∧
  (∀ type, type ≠ "post" → type ≠ "comment" →
     make_dataframe type data w = (Raise (Exception "Invalid type"), w) ∧
     ∀ n subreddit sort_by verbose,
       get_all_data upstream n type subreddit sort_by verbose w =
         Some (Raise (Exception "Invalid type"), w)).
Proof.
  split; [done|]. split; [done|]. intros type Hp Hc.
  apply String.eqb_neq in Hp, Hc.
  unfold make_dataframe, get_all_data, select_get_data.
  by rewrite Hp, Hc.
Qed.

(** C9: [make_dataframe] leaves the world as it finds it and returns the
    same value in every world, so a second call on the same rows returns
    what the first did. *)
Theorem make_dataframe_twice type data w :
  make_dataframe type data (make_dataframe type data w).2 =
    make_dataframe type data w ∧
  (make_dataframe type data w).2 = w ∧
  (∀ w', (make_dataframe type data w').1 = (make_dataframe type data w).1).
Proof.
  split; [by rewrite make_dataframe_pure|].
  split; [apply make_dataframe_pure|].
  intros w'. apply make_dataframe_any_world.
Qed.

End Table.

(** ** The token exchange *)

Section Token.

Context (upstream : nat → result response)
        (json_file : string → result value).

(** C5: when the answer of the token endpoint yields no value at
    [access_token], building the loader raises after that one POST: no
    listing and no comment request is sent.  When the answer is an object
    without the field, the exception is [Exception('Invalid credentials')]
    and the answer is printed. *)
Theorem init_without_token path w cfg client_id secret_token username
    password :
  json_file path = Ok cfg →
  getitem cfg "client_id" = Ok client_id →
  getitem cfg "secret_token" = Ok secret_token →
  getitem cfg "username" = Ok username →
  getitem cfg "password" = Ok password →
  (∀ e, token_of (upstream (length (net w))) = Raise e →
     ∃ e' w',
       __init__ upstream json_file path w = (Raise e', w') ∧
       only_token_request w w' ∧
       filter (λ r, is_fetch r = true) (net w') =
         filter (λ r, is_fetch r = true) (net w)) ∧
  (∀ res fields,
     upstream (length (net w)) = Ok res →
     json res = Ok (VDict fields) →
     dict_get "access_token" fields = None →
     ∃ w',
       __init__ upstream json_file path w =
         (Raise (Exception "Invalid credentials"), w') ∧
       only_token_request w w' ∧
       filter (λ r, is_fetch r = true) (net w') =
         filter (λ r, is_fetch r = true) (net w) ∧
       stdout w' = stdout w ++ [ShowValue (VDict fields)]).
Proof.
  intros Hfile Hid Hsec Huser Hpw.
  assert (∀ req : request, url req = access_token_url →
            filter (λ r, is_fetch r = true) (net w ++ [req]) =
              filter (λ r, is_fetch r = true) (net w)) as Hfilter.
  { intros req Hurl. rewrite filter_app, filter_cons_False.
    - by rewrite filter_nil, app_nil_r.
    - unfold is_fetch. by rewrite Hurl. }
  split.
  - intros e. unfold token_of, rbind.
    unfold __init__, get_token, requests_post, send, bind, lift, get_self,
      set_self, print, raise. simpl.
    rewrite Hfile. simpl. rewrite Hid, Hsec, Huser, Hpw. simpl.
    destruct (upstream (length (net w))) as [res|e0]; simpl.
    + destruct (json res) as [body|e1]; simpl.
      * destruct (getitem body "access_token") as [tok|e2]; [done|]. simpl.
        intros _. destruct e2; eexists _, _;
          (split; [reflexivity|split; [by eexists|by apply Hfilter]]).
      * intros _. destruct e1; eexists _, _;
          (split; [reflexivity|split; [by eexists|by apply Hfilter]]).
    + intros _. eexists _, _.
      split; [reflexivity|split; [by eexists|by apply Hfilter]].
  - intros res fields Hup Hjson Hmiss.
    unfold __init__, get_token, requests_post, send, bind, lift, get_self,
      set_self, print, raise. simpl.
    rewrite Hfile. simpl. rewrite Hid, Hsec, Huser, Hpw, Hup, Hjson. simpl.
    rewrite Hmiss. simpl.
    eexists. split; [reflexivity|]. simpl.
    split; [by eexists|]. split; [by apply Hfilter|reflexivity].
Qed.

End Token.

(** ** The fan-out of comment mode *)

Section FanOut.

Context (upstream : nat → result response).

Lemma listed_inv r posts :
  listed r = Ok posts →
  ∃ res raw d children,
    r = Ok res ∧ json res = Ok raw ∧ getitem raw "data" = Ok d ∧
    getitem d "children" = Ok children ∧ py_iter children = Ok posts.
Proof.
  unfold listed, rbind. destruct r as [res|]; [|done].
  destruct (json res) as [raw|] eqn:Hj; [|done].
  destruct (getitem raw "data") as [d|] eqn:Hd; [|done].
  destruct (getitem d "children") as [children|] eqn:Hc; [|done].
  intros Hit. by exists res, raw, d, children.
Qed.

Lemma comment_tree_inv r cs :
  comment_tree r = Ok cs →
  ∃ res raw tree d children,
    r = Ok res ∧ json res = Ok raw ∧ getitem_int raw 1 = Ok tree ∧
    getitem tree "data" = Ok d ∧ getitem d "children" = Ok children ∧
    py_iter children = Ok cs.
Proof.
  unfold comment_tree, rbind. destruct r as [res|]; [|done].
  destruct (json res) as [raw|] eqn:Hj; [|done].
  destruct (getitem_int raw 1) as [tree|] eqn:Ht; [|done].
  destruct (getitem tree "data") as [d|] eqn:Hd; [|done].
  destruct (getitem d "children") as [children|] eqn:Hc; [|done].
  intros Hit. by exists res, raw, tree, d, children.
Qed.

Lemma add_comment_step v c fields data w :
  getitem c "data" = Ok (VDict fields) →
  add_comment (post_name v) (post_title v) data c w =
    (Ok (data ++ comment_rows v [c]), w).
Proof.
  intros Hc. unfold add_comment, comment_rows, comment_body, bind, lift, ret.
  simpl. rewrite Hc. simpl.
  destruct (dict_get "body" fields) as [b|] eqn:Hb; simpl; [done|].
  by rewrite app_nil_r.
Qed.

(** The inner loop appends the rows of the items with a body and sends
    nothing. *)
Lemma add_comment_rows v cs :
  Forall has_data_object cs →
  ∀ data w,
    for_each (add_comment (post_name v) (post_title v)) cs data w =
      (Ok (data ++ comment_rows v cs), w).
Proof.
  induction 1 as [|c cs [fields Hc] _ IH]; intros data w.
  - simpl. unfold ret. by rewrite app_nil_r.
  - cbn [for_each]. unfold bind at 1.
    rewrite (add_comment_step _ _ _ _ _ Hc), IH, <- app_assoc.
    do 2 f_equal. unfold comment_rows. simpl.
    by destruct (comment_body c).
Qed.

(** One pass of the outer loop: one request, the rows of its answer. *)
Lemma add_comments_of_post_step sort_by post v cs data w :
  views post v →
  comment_tree (upstream (length (net w))) = Ok cs →
  Forall has_data_object cs →
  add_comments_of_post upstream sort_by data post w =
    (Ok (data ++ comment_rows v cs),
     {| self := self w;
        net := net w ++ [comments_request (headers (self w)) sort_by v];
        stdout := stdout w |}).
Proof.
  intros (pd & Hpd & Hname & Htitle & Hid) Htree Hobj.
  destruct (comment_tree_inv _ _ Htree)
    as (res & raw & tree & d & children & Hup & Hjson & H1 & Hd & Hch & Hit).
  unfold add_comments_of_post, requests_get, send, bind, lift, get_self.
  rewrite Hpd. simpl. rewrite Hname, Htitle, Hid. simpl.
  rewrite Hup, Hjson. simpl. rewrite H1. simpl. rewrite Hd. simpl.
  rewrite Hch. simpl. rewrite Hit. simpl.
  by rewrite add_comment_rows.
Qed.

(** The outer loop sends one request per post, to the comments of that
    post, and appends the rows of each answer in turn. *)
Lemma add_comments_of_posts sort_by posts vs :
  Forall2 views posts vs →
  ∀ css data w,
    length css = length posts →
    (∀ i cs, css !! i = Some cs →
       comment_tree (upstream (length (net w) + i)) = Ok cs ∧
       Forall has_data_object cs) →
    ∃ w',
      for_each (add_comments_of_post upstream sort_by) posts data w =
        (Ok (data ++ concat (zip_with comment_rows vs css)), w') ∧
      net w' =
        net w ++ (comments_request (headers (self w)) sort_by <$> vs) ∧
      self w' = self w ∧ stdout w' = stdout w.
Proof.
  induction 1 as [|post v posts vs Hv _ IH]; intros css data w Hlen Hcs.
  - exists w. simpl. unfold ret. destruct css; [|done]. simpl.
    by rewrite !app_nil_r.
  - destruct css as [|cs css]; [done|]. injection Hlen as Hlen.
    destruct (Hcs 0%nat cs eq_refl) as [Htree Hobj].
    rewrite Nat.add_0_r in Htree.
    cbn [for_each]. unfold bind at 1.
    rewrite (add_comments_of_post_step sort_by post v cs data w Hv Htree Hobj).
    match goal with
    | |- ∃ w', for_each _ _ _ ?w1 = _ ∧ _ =>
        destruct (IH css (data ++ comment_rows v cs) w1 Hlen)
          as (w' & Hrun & Hnet & Hself & Hout)
    end.
    { intros i cs' Hi. simpl. rewrite length_app. simpl.
      replace (length (net w) + 1 + i)%nat with (length (net w) + S i)%nat
        by lia.
      by apply Hcs. }
    exists w'. rewrite Hrun, Hnet, Hself, Hout. simpl.
    split; [by rewrite <- app_assoc|]. split; [|done].
    by rewrite <- app_assoc.
Qed.

(** C4: on a page of N posts, comment mode sends the listing request and
    then exactly N requests, one to the comments of each post in turn,
    and returns one row (post name, post title, comment body) per comment
    item whose data carries [body], in the order of the answers; items
    without one leave no row. *)
Theorem comment_mode_fan_out subreddit sort_by limit before w posts vs css :
  listed (upstream (length (net w))) = Ok posts →
  Forall2 views posts vs →
  length css = length posts →
  (∀ i cs, css !! i = Some cs →
     comment_tree (upstream (length (net w) + 1 + i)) = Ok cs ∧
     Forall has_data_object cs) →
  ∃ first w',
    get_single_batch_post_comment_from_reddit upstream subreddit sort_by
      limit before w = (Ok (concat (zip_with comment_rows vs css)), w') ∧
    net w' =
      net w ++ first ::
        (comments_request (headers (self w)) sort_by <$> vs) ∧
    url first = listing_url subreddit "top" ∧
    length (net w') = (length (net w) + 1 + length posts)%nat.
Proof.
  intros Hlist Hviews Hlen Hcs.
  destruct (listed_inv _ _ Hlist)
    as (res & raw & d & children & Hup & Hjson & Hd & Hch & Hit).
  unfold get_single_batch_post_comment_from_reddit, requests_get, send,
    bind, lift, get_self.
  cbn beta iota. rewrite Hup, Hjson. cbn beta iota. rewrite Hd.
  cbn beta iota. rewrite Hch. cbn beta iota. rewrite Hit. cbn beta iota.
  match goal with
  | |- ∃ first w', for_each _ _ _ ?w1 = _ ∧ _ =>
      destruct (add_comments_of_posts sort_by posts vs Hviews css [] w1 Hlen)
        as (w' & Hrun & Hnet & _)
  end.
  { intros i cs Hi. simpl. rewrite length_app. simpl. by apply Hcs. }
  eexists _, w'. rewrite Hrun, Hnet. simpl.
  split; [done|]. rewrite <- app_assoc. simpl. split; [reflexivity|].
  split; [done|].
  rewrite length_app. simpl. rewrite length_fmap.
  apply Forall2_length in Hviews. lia.
Qed.

End FanOut.

(** ** The properties at work on the sample scripts *)

(** Two posts then an empty page: two rows, two requests, the second under
    the cursor of the second post. *)
Example two_then_empty_run :
  ∃ w', get_all_data two_then_empty 5 "post" "askreddit" "new" false ready =
          Some (Ok {| columns := ["name"; "title"; "text"];
                      rows := [{| col0 := VStr "t3_a"; col1 := VStr "A";
                                  col2 := VStr "x" |};
                               {| col0 := VStr "t3_b"; col1 := VStr "B";
                                  col2 := VStr "" |}] |}, w') ∧
        (λ r, params r !! "before") <$> net w' = [None; Some (VStr "t3_b")].
Proof. eexists. split; vm_compute; reflexivity. Qed.

(** Three posts then a failed request: the three rows, and the exception on
    standard output. *)
Example three_then_error_run :
  ∃ df w', get_all_data three_then_error 5 "post" "askreddit" "new" false ready
             = Some (Ok df, w') ∧
           col0 <$> rows df = [VStr "t3_a"; VStr "t3_b"; VStr "t3_c"] ∧
           stdout w' = [ShowExn RequestException].
Proof. eexists _, _. split; [|split]; vm_compute; reflexivity. Qed.

(** Building the loader against a granting endpoint: two requests, and the
    loader the samples start from. *)
Example granting_init :
  ∃ w', __init__ granting credentials_file "reddit_cred.json" blank
          = (Ok tt, w') ∧
        self w' = self ready ∧
        url <$> net w' = [access_token_url; me_url] ∧
        stdout w' = [Text "Success authenticated"].
Proof. eexists. repeat split; vm_compute; reflexivity. Qed.

Lemma get_all_data_size_witness :
  crawl_log two_then_empty 5 "post" "askreddit" "new" true ready !! 1%nat
    = Some (VStr "t3_b", Ok []) ∧
  ∃ df w',
    (∀ m, (5 ≤ m)%nat →
       get_all_data two_then_empty m "post" "askreddit" "new" true ready =
         Some (Ok df, w')) ∧
    length (crawl_log two_then_empty 5 "post" "askreddit" "new" true ready)
      = 2%nat ∧
    Forall (λ co, ¬ ends_crawl co.2)
      (take 1 (crawl_log two_then_empty 5 "post" "askreddit" "new" true ready)) ∧
    length (rows df) =
      sum_list (batch_sizes
                  (crawl_log two_then_empty 5 "post" "askreddit" "new" true
                     ready)).
Proof.
  split; [vm_compute; reflexivity|].
  apply (get_all_data_size two_then_empty 5 "post" "askreddit" "new" true
           ready 1 (VStr "t3_b") (Ok [])); [vm_compute; reflexivity|exact I].
Defined.

Lemma get_all_data_catches_witness :
  ∃ df w',
    get_all_data three_then_error 5 "post" "askreddit" "new" false ready =
      Some (Ok df, w') ∧
    rows df =
      all_fetched
        (take 1 (crawl_log three_then_error 5 "post" "askreddit" "new" false
                   ready)) ∧
    Forall (λ co, ∃ got, co.2 = Ok got ∧ got ≠ [])
      (take 1 (crawl_log three_then_error 5 "post" "askreddit" "new" false
                 ready)) ∧
    length (crawl_log three_then_error 5 "post" "askreddit" "new" false ready)
      = 2%nat.
Proof.
  apply (proj2 (get_all_data_catches three_then_error "post"
                  (get_single_batch_post_from_reddit three_then_error)
                  "askreddit" "new" false ready eq_refl)
           5%nat 1%nat (VStr "t3_c") RequestException).
  vm_compute; reflexivity.
Defined.

Lemma get_all_data_first_empty_witness :
  ∃ cols w',
    get_all_data nothing 5 "comment" "askreddit" "top" false ready =
      Some (Ok {| columns := cols; rows := [] |}, w') ∧
    crawl_log nothing 5 "comment" "askreddit" "top" false ready
      = [(VNone, Ok [])] ∧
    stdout w' = stdout (announce false ready) ++ [ShowExn IndexError].
Proof.
  apply (get_all_data_first_empty nothing 5 "comment"
           (get_single_batch_post_comment_from_reddit nothing)
           "askreddit" "top" false ready eq_refl);
    [vm_compute; reflexivity|discriminate].
Defined.

Lemma cursor_follows_last_row_witness :
  (∃ got r,
     Ok [{| col0 := VStr "t3_a"; col1 := VStr "A"; col2 := VStr "x" |};
         {| col0 := VStr "t3_b"; col1 := VStr "B"; col2 := VStr "" |}] = Ok got ∧
     last got = Some r ∧ VStr "t3_b" = col0 r) ∧
  never_reuses_cursor
    (crawl_log two_then_empty 5 "post" "askreddit" "new" false ready).
Proof.
  pose proof (cursor_follows_last_row two_then_empty 5 "post" "askreddit"
                "new" false ready) as (_ & Hchain & Hfresh).
  split.
  - apply (Hchain 0%nat VNone _ (VStr "t3_b") (Ok []));
      vm_compute; reflexivity.
  - apply Hfresh.
    change (NoDup [VNone; VStr "t3_b"]).
    apply NoDup_cons. split.
    + intros Hin. inversion Hin as [|? ? ? Hnil]. inversion Hnil.
    + apply NoDup_singleton.
Defined.

Lemma loader_unchanged_witness :
  ∃ built,
    __init__ whole_session credentials_file "reddit_cred.json" blank
      = (Ok tt, built) ∧
    (∃ token,
       headers (self built) =
         <["Authorization" := "bearer " +:+ token]>
           {["User-Agent" := "MyBot/0.0.1"]}) ∧
    ∃ r w',
      get_all_data whole_session 5 "post" "askreddit" "new" true built
        = Some (r, w') ∧
      self w' = self built.
Proof.
  eexists. split; [vm_compute; reflexivity|].
  match goal with
  | |- (∃ token, headers (self ?w) = _) ∧ _ =>
      pose proof (loader_unchanged whole_session "askreddit" "new" (VInt 100)
                    VNone w) as (Hinit & _ & _ & Hall)
  end.
  split.
  - apply (Hinit credentials_file "reddit_cred.json" blank).
    vm_compute; reflexivity.
  - eexists _, _. split; [vm_compute; reflexivity|].
    eapply (Hall 5%nat "post" true). vm_compute; reflexivity.
Defined.

Lemma make_dataframe_columns_witness :
  make_dataframe "video" [] ready = (Raise (Exception "Invalid type"), ready) ∧
  get_all_data nothing 0 "video" "askreddit" "new" true ready =
    Some (Raise (Exception "Invalid type"), ready).
Proof.
  destruct (proj2 (proj2 (make_dataframe_columns nothing [] ready)) "video")
    as [Hmk Hall]; [discriminate|discriminate|].
  split; [exact Hmk|apply Hall].
Defined.

Lemma init_without_token_witness :
  ∃ w',
    __init__ refused credentials_file "reddit_cred.json" blank =
      (Raise (Exception "Invalid credentials"), w') ∧
    only_token_request blank w' ∧
    filter (λ r, is_fetch r = true) (net w') =
      filter (λ r, is_fetch r = true) (net blank) ∧
    stdout w' =
      stdout blank ++ [ShowValue (VDict [("error", VStr "invalid_grant")])].
Proof.
  apply (proj2 (init_without_token refused credentials_file "reddit_cred.json"
                  blank credentials (VStr "id") (VStr "secret") (VStr "user")
                  (VStr "pass") eq_refl eq_refl eq_refl eq_refl eq_refl)
           {| status_code := 401;
              json := Ok (VDict [("error", VStr "invalid_grant")]) |}
           [("error", VStr "invalid_grant")]);
    reflexivity.
Defined.

Lemma comment_mode_fan_out_witness :
  ∃ first w',
    get_single_batch_post_comment_from_reddit two_posts_with_comments
      "askreddit" "top" (VInt 100) VNone ready =
      (Ok [{| col0 := VStr "t3_a"; col1 := VStr "A"; col2 := VStr "first" |};
           {| col0 := VStr "t3_a"; col1 := VStr "A"; col2 := VStr "second" |}],
       w') ∧
    net w' =
      net ready ++ first ::
        (comments_request (headers (self ready)) "top" <$>
           [{| post_name := VStr "t3_a"; post_title := VStr "A";
               post_id := VStr "a" |};
            {| post_name := VStr "t3_b"; post_title := VStr "B";
               post_id := VStr "b" |}]) ∧
    url first = listing_url "askreddit" "top" ∧
    length (net w') = 3%nat.
Proof.
  apply (comment_mode_fan_out two_posts_with_comments "askreddit" "top"
           (VInt 100) VNone ready
           [post_item "t3_a" "A" "x" "a"; post_item "t3_b" "B" "" "b"]
           [{| post_name := VStr "t3_a"; post_title := VStr "A";
               post_id := VStr "a" |};
            {| post_name := VStr "t3_b"; post_title := VStr "B";
               post_id := VStr "b" |}]
           [[comment_item "first"; more_item; comment_item "second"]; []]).
  - reflexivity.
  - repeat constructor; eexists; repeat split; reflexivity.
  - reflexivity.
  - intros [|[|i]] cs; simpl; intros [= <-]; split;
      [reflexivity|repeat constructor; eexists; reflexivity
      |reflexivity|constructor].
Defined.

(** * Further properties of the loader *)

(** ** The post fetcher *)

Section PostFetcher.

Context (upstream : nat → result response).

Lemma for_each_post_rows posts : ∀ data w,
  for_each (λ data post,
      let* pd := lift (getitem post "data") in
      let* name := lift (getitem pd "name") in
      let* pd := lift (getitem post "data") in
      let* title := lift (getitem pd "title") in
      let* pd := lift (getitem post "data") in
      let* selftext := lift (getitem pd "selftext") in
      ret (data ++ [{| col0 := name; col1 := title; col2 := selftext |}]))
    posts data w =
  (rbind (post_rows posts) (λ rs, Ok (data ++ rs)), w).
Proof.
  induction posts as [|post posts IH]; intros data w.
  - simpl. unfold ret. by rewrite app_nil_r.
  - cbn [for_each post_rows]. unfold bind at 1. unfold post_row, rbind.
    unfold bind, lift, ret.
    destruct (getitem post "data") as [pd|e]; [|done].
    destruct (getitem pd "name") as [name|e]; [|done].
    destruct (getitem pd "title") as [title|e]; [|done].
    destruct (getitem pd "selftext") as [selftext|e]; [|done].
    rewrite IH. unfold rbind.
    destruct (post_rows posts) as [rs|e]; [|done].
    by rewrite <- app_assoc.
Qed.

(** The post fetcher sends its one request whatever the answer, and
    returns what the answer decodes to. *)
Lemma post_fetch_run subreddit sort_by limit before w :
  get_single_batch_post_from_reddit upstream subreddit sort_by limit before w
  = (rbind (listed (upstream (length (net w)))) post_rows,
     sent w [post_request (headers (self w)) subreddit sort_by limit before]).
Proof.
  unfold get_single_batch_post_from_reddit, requests_get, send.
  unfold bind at 1. unfold get_self. unfold bind at 1.
  unfold listed, rbind, sent, post_request.
  destruct (upstream (length (net w))) as [res|e]; [|done].
  unfold bind at 1. unfold lift at 1.
  destruct (json res) as [raw|e]; [|done].
  unfold bind at 1. unfold lift at 1.
  destruct (getitem raw "data") as [d|e]; [|done].
  unfold bind at 1. unfold lift at 1.
  destruct (getitem d "children") as [children|e]; [|done].
  unfold bind at 1. unfold lift at 1.
  destruct (py_iter children) as [posts|e]; [|done].
  rewrite for_each_post_rows. unfold rbind.
  by destruct (post_rows posts).
Qed.

Lemma post_rows_all posts rs :
  Forall2 (λ post r, post_row post = Ok r) posts rs →
  post_rows posts = Ok rs.
Proof.
  induction 1 as [|post r posts rs Hr _ IH]; [done|].
  simpl. by rewrite Hr, IH.
Qed.

Lemma post_rows_spoiled good bad rest e :
  Forall (λ post, ∃ r, post_row post = Ok r) good →
  post_row bad = Raise e →
  post_rows (good ++ bad :: rest) = Raise e.
Proof.
  intros Hgood Hbad. induction Hgood as [|post good [r Hr] _ IH]; simpl.
  - by rewrite Hbad.
  - by rewrite Hr, IH.
Qed.

(** X1: on a page whose items all hold a name, a title and a selftext the
    post fetcher returns one row per item, in the order of the page, after
    one GET of the listing with the loader's headers, [limit], [raw_json]
    and, for a truthy cursor only, [before]. *)
Theorem post_fetch_rows subreddit sort_by limit before w posts rs :
  listed (upstream (length (net w))) = Ok posts →
  Forall2 (λ post r, post_row post = Ok r) posts rs →
  get_single_batch_post_from_reddit upstream subreddit sort_by limit before w
    = (Ok rs,
       sent w [post_request (headers (self w)) subreddit sort_by limit before]) ∧
  length rs = length posts ∧
  params (post_request (headers (self w)) subreddit sort_by limit before)
    !! "before" = (if truthy before then Some before else None).
Proof.
  intros Hlist Hrows. rewrite post_fetch_run, Hlist. simpl.
  rewrite (post_rows_all _ _ Hrows).
  split; [done|]. split; [symmetry; by eapply Forall2_length|].
  unfold post_request, with_before. simpl.
  destruct (truthy before); [by rewrite lookup_insert_eq|].
  rewrite lookup_insert_ne by done. by rewrite lookup_singleton_ne.
Qed.

(** X2: one item without a row spoils the page: the post fetcher raises
    what reading that item raises and returns none of the rows before it,
    though the request has gone out. *)
Theorem post_fetch_spoiled subreddit sort_by limit before w good bad rest e :
  listed (upstream (length (net w))) = Ok (good ++ bad :: rest) →
  Forall (λ post, ∃ r, post_row post = Ok r) good →
  post_row bad = Raise e →
  get_single_batch_post_from_reddit upstream subreddit sort_by limit before w
    = (Raise e,
       sent w [post_request (headers (self w)) subreddit sort_by limit before]).
Proof.
  intros Hlist Hgood Hbad. rewrite post_fetch_run, Hlist. simpl.
  by rewrite (post_rows_spoiled _ _ _ _ Hgood Hbad).
Qed.

(** X3: an answer that is no listing makes the post fetcher raise after its
    one request: the exception of [requests] or of [json()] as it is,
    [KeyError('data')] for an object without [data], [TypeError] for a JSON
    value that is no object. *)
Theorem post_fetch_no_listing subreddit sort_by limit before w :
  (∀ e, upstream (length (net w)) = Raise e →
     get_single_batch_post_from_reddit upstream subreddit sort_by limit
       before w
     = (Raise e, sent w [post_request (headers (self w)) subreddit sort_by
                           limit before])) ∧
  (∀ res e, upstream (length (net w)) = Ok res → json res = Raise e →
     get_single_batch_post_from_reddit upstream subreddit sort_by limit
       before w
     = (Raise e, sent w [post_request (headers (self w)) subreddit sort_by
                           limit before])) ∧
  (∀ res fields,
     upstream (length (net w)) = Ok res → json res = Ok (VDict fields) →
     dict_get "data" fields = None →
     get_single_batch_post_from_reddit upstream subreddit sort_by limit
       before w
     = (Raise (KeyError (VStr "data")),
        sent w [post_request (headers (self w)) subreddit sort_by limit
                  before])) ∧
  (∀ res body,
     upstream (length (net w)) = Ok res → json res = Ok body →
     (∀ fields, body ≠ VDict fields) →
     get_single_batch_post_from_reddit upstream subreddit sort_by limit
       before w
     = (Raise TypeError,
        sent w [post_request (headers (self w)) subreddit sort_by limit
                  before])).
Proof.
  repeat split.
  - intros e Hup. by rewrite post_fetch_run, Hup.
  - intros res e Hup Hjson. rewrite post_fetch_run, Hup. simpl.
    by rewrite Hjson.
  - intros res fields Hup Hjson Hmiss. rewrite post_fetch_run, Hup. simpl.
    rewrite Hjson. simpl. by rewrite Hmiss.
  - intros res body Hup Hjson Hno. rewrite post_fetch_run, Hup. simpl.
    rewrite Hjson. simpl. destruct body; try done. by destruct (Hno d).
Qed.

End PostFetcher.

(** ** Comment mode when a comment request fails *)

Section CommentFailure.

Context (upstream : nat → result response).

Lemma for_each_app {A B} (body : B → A → M B) xs ys : ∀ acc w,
  for_each body (xs ++ ys) acc w =
  bind (for_each body xs acc) (for_each body ys) w.
Proof.
  induction xs as [|x xs IH]; intros acc w; [done|].
  simpl. unfold bind.
  destruct (body acc x w) as [[acc'|e] w1]; [|done].
  by rewrite IH.
Qed.

Lemma add_comments_of_post_fails sort_by post v data w e :
  views post v →
  comment_tree (upstream (length (net w))) = Raise e →
  add_comments_of_post upstream sort_by data post w =
    (Raise e, sent w [comments_request (headers (self w)) sort_by v]).
Proof.
  intros (pd & Hpd & Hname & Htitle & Hid).
  unfold comment_tree, rbind, add_comments_of_post, requests_get, send, bind,
    lift, get_self, sent, comments_request.
  rewrite Hpd. simpl. rewrite Hname, Htitle, Hid. simpl.
  destruct (upstream (length (net w))) as [res|e0]; [|by intros [= ->]].
  destruct (json res) as [raw|e0]; [|by intros [= ->]].
  destruct (getitem_int raw 1) as [tree|e0]; [|by intros [= ->]].
  destruct (getitem tree "data") as [d|e0]; [|by intros [= ->]].
  destruct (getitem d "children") as [children|e0]; [|by intros [= ->]].
  destruct (py_iter children) as [cs|e0]; [done|by intros [= ->]].
Qed.

(** X4: when the answer to the comment request of a post is no comment
    tree, comment mode raises what reading it raises and the rows of the
    posts before it are lost with it; the listing request, one comment
    request per earlier post and the failing one have gone out, none for
    the posts after. *)
Theorem comment_fetch_fails subreddit sort_by limit before w good bad rest
    vs vb css e :
  listed (upstream (length (net w))) = Ok (good ++ bad :: rest) →
  Forall2 views good vs →
  views bad vb →
  length css = length good →
  (∀ i cs, css !! i = Some cs →
     comment_tree (upstream (length (net w) + 1 + i)) = Ok cs ∧
     Forall has_data_object cs) →
  comment_tree (upstream (length (net w) + 1 + length good)) = Raise e →
  get_single_batch_post_comment_from_reddit upstream subreddit sort_by limit
    before w =
    (Raise e,
     sent w (top_request (headers (self w)) subreddit limit before ::
             (comments_request (headers (self w)) sort_by <$> vs ++ [vb]))).
Proof.
  intros Hlist Hviews Hbad Hlen Hcs Hfail.
  destruct (listed_inv _ _ Hlist)
    as (res & raw & d & children & Hup & Hjson & Hd & Hch & Hit).
  unfold get_single_batch_post_comment_from_reddit, requests_get, send,
    bind at 1 2 3 4 5 6, lift, get_self.
  cbn beta iota. rewrite Hup, Hjson. cbn beta iota. rewrite Hd.
  cbn beta iota. rewrite Hch. cbn beta iota. rewrite Hit. cbn beta iota.
  rewrite for_each_app. unfold bind at 1.
  match goal with
  | |- match for_each _ _ _ ?w1 with _ => _ end = _ =>
      destruct (add_comments_of_posts upstream sort_by good vs Hviews css []
                  w1 Hlen)
        as (w' & Hrun & Hnet & Hself & Hout)
  end.
  { intros i cs Hi. simpl. rewrite length_app. simpl. by apply Hcs. }
  rewrite Hrun. cbn [for_each]. unfold bind at 1.
  rewrite (add_comments_of_post_fails sort_by bad vb _ w' e Hbad).
  - unfold sent. rewrite Hself, Hout, Hnet. simpl.
    rewrite <- !app_assoc. simpl. by rewrite fmap_app.
  - rewrite Hnet. simpl. rewrite !length_app, length_fmap. simpl.
    apply Forall2_length in Hviews. by rewrite <- Hviews.
Qed.

End CommentFailure.

(** ** What goes out on the network *)

Section Outgoing.

Context (upstream : nat → result response).

Lemma only_fetches_refl w : only_fetches w w.
Proof. split; [done|]. exists []. by rewrite app_nil_r. Qed.

Lemma only_fetches_trans w1 w2 w3 :
  only_fetches w1 w2 → only_fetches w2 w3 → only_fetches w1 w3.
Proof.
  intros [Hs1 (rs1 & Hn1 & Hf1)] [Hs2 (rs2 & Hn2 & Hf2)].
  split; [congruence|]. exists (rs1 ++ rs2).
  rewrite Hn2, Hn1, <- app_assoc. split; [done|].
  apply Forall_app. split; [done|]. by rewrite <- Hs1.
Qed.

Lemma only_fetches_print v w : only_fetches w (print v w).2.
Proof. split; [done|]. exists []. simpl. by rewrite app_nil_r. Qed.

Lemma only_fetches_lift {A} (r : result A) w : only_fetches w (lift r w).2.
Proof. apply only_fetches_refl. Qed.

Lemma only_fetches_ret {A} (a : A) w : only_fetches w (ret a w).2.
Proof. apply only_fetches_refl. Qed.

Lemma only_fetches_get uri p w :
  is_fetch {| method := GET; url := uri; req_headers := headers (self w);
              params := p; auth := None; form := ∅ |} = true →
  only_fetches w (requests_get upstream uri (headers (self w)) p w).2.
Proof.
  intros Hf. split; [done|]. eexists [_]. split; [reflexivity|].
  by repeat constructor.
Qed.

Lemma only_fetches_bind {A B} (m : M A) (k : A → M B) w :
  only_fetches w (m w).2 →
  (∀ a w1, only_fetches w1 (k a w1).2) →
  only_fetches w (bind m k w).2.
Proof.
  intros Hm Hk. unfold bind. destruct (m w) as [[a|e] w1]; [|done].
  eapply only_fetches_trans; [exact Hm|apply Hk].
Qed.

Lemma only_fetches_get_self {A} (k : RedditLoader → M A) w :
  only_fetches w (k (self w) w).2 →
  only_fetches w (bind get_self k w).2.
Proof. done. Qed.

Lemma only_fetches_for_each {A B} (body : B → A → M B) xs :
  (∀ acc x w, only_fetches w (body acc x w).2) →
  ∀ acc w, only_fetches w (for_each body xs acc w).2.
Proof.
  intros Hb. induction xs as [|x xs IH]; intros acc w; simpl.
  - apply only_fetches_refl.
  - apply only_fetches_bind; [apply Hb|intros; apply IH].
Qed.

Ltac only_fetches_step :=
  first [ apply only_fetches_lift | apply only_fetches_ret
        | apply only_fetches_get_self
        | apply only_fetches_get; reflexivity
        | apply only_fetches_bind; [|intros ? ?]
        | apply only_fetches_for_each; intros ? ? ? ].

Lemma only_fetches_post subreddit sort_by limit before w :
  only_fetches w
    (get_single_batch_post_from_reddit upstream subreddit sort_by limit
       before w).2.
Proof.
  unfold get_single_batch_post_from_reddit. repeat only_fetches_step.
Qed.

Lemma only_fetches_comment subreddit sort_by limit before w :
  only_fetches w
    (get_single_batch_post_comment_from_reddit upstream subreddit sort_by
       limit before w).2.
Proof.
  unfold get_single_batch_post_comment_from_reddit, add_comments_of_post,
    add_comment.
  repeat only_fetches_step.
  match goal with |- only_fetches _ ((if ?b then _ else _) _).2 =>
    destruct b end; repeat only_fetches_step.
Qed.

Lemma only_fetches_selected type get_data subreddit sort_by limit before w :
  select_get_data upstream type = Some get_data →
  only_fetches w (get_data subreddit sort_by limit before w).2.
Proof.
  unfold select_get_data.
  destruct (String.eqb type "post");
    [intros [= <-]; apply only_fetches_post|].
  destruct (String.eqb type "comment"); [|done].
  intros [= <-]. apply only_fetches_comment.
Qed.

Lemma only_fetches_iteration get_data verbose l w :
  (∀ c w, only_fetches w (get_data c w).2) →
  only_fetches w (iteration get_data verbose l w).2.
Proof.
  intros Hgd. unfold iteration. specialize (Hgd (before l) w).
  destruct (get_data (before l) w) as [[got|e] w1]; simpl in *.
  - destruct (last (data l ++ got)).
    + destruct (Nat.eqb _ _); destruct verbose; simpl; try done;
        (eapply only_fetches_trans; [exact Hgd|apply only_fetches_print]).
    + eapply only_fetches_trans; [exact Hgd|apply only_fetches_print].
  - eapply only_fetches_trans; [exact Hgd|apply only_fetches_print].
Qed.

Lemma only_fetches_while get_data verbose n : ∀ l w l' w',
  (∀ c w, only_fetches w (get_data c w).2) →
  while_true n (iteration get_data verbose) l w = Some (l', w') →
  only_fetches w w'.
Proof.
  induction n as [|n IH]; intros l w l' w' Hgd Hw; [done|]. simpl in Hw.
  pose proof (only_fetches_iteration get_data verbose l w Hgd) as Hit.
  destruct (iteration get_data verbose l w) as [[l1|l1] w1]; simpl in Hit.
  - eapply only_fetches_trans; [exact Hit|]. by eapply IH.
  - by injection Hw as <- <-.
Qed.

(** X5: both batch fetchers and [get_all_data] only add to the log of
    requests, and every request they add is a GET of a listing or of the
    comments of a post that carries the loader's headers and neither
    credentials nor a form. *)
Theorem requests_are_fetches subreddit sort_by limit before w :
  only_fetches w
    (get_single_batch_post_from_reddit upstream subreddit sort_by limit
       before w).2 ∧
  only_fetches w
    (get_single_batch_post_comment_from_reddit upstream subreddit sort_by
       limit before w).2 ∧
  (∀ n type verbose r w',
     get_all_data upstream n type subreddit sort_by verbose w = Some (r, w') →
     only_fetches w w').
Proof.
  split; [apply only_fetches_post|]. split; [apply only_fetches_comment|].
  intros n type verbose r w'. unfold get_all_data.
  destruct (select_get_data upstream type) as [gd|] eqn:Hsel;
    [|intros [= _ <-]; apply only_fetches_refl].
  destruct (while_true _ _ _ _) as [[l1 w1]|] eqn:Hw; [|done].
  intros [= Hrun]. pose proof (make_dataframe_pure type (data l1) w1) as Hp.
  rewrite Hrun in Hp. simpl in Hp. subst w'.
  apply only_fetches_while in Hw;
    [|intros c w0; by apply (only_fetches_selected type)].
  eapply only_fetches_trans; [|exact Hw].
  destruct verbose; [apply only_fetches_print|apply only_fetches_refl].
Qed.

End Outgoing.

(** ** More on the crawl *)

Section CrawlMore.

Context (upstream : nat → result response).

Lemma quiet_stdout {A} (m : M A) w : quiet m → stdout (m w).2 = stdout w.
Proof.
  intros Hq. destruct (Hq w) as [_ Hout]. specialize (Hout (stdout w)).
  replace (with_stdout (stdout w) w) with w in Hout by (by destruct w).
  destruct (m w) as [r w1]. simpl in *. by injection Hout as ->.
Qed.

Section AnyFetcher.

Context (get_data : value → M (list row)) (verbose : bool).

Lemma iteration_goes_on l w got :
  sized l →
  (get_data (before l) w).1 = Ok got → got ≠ [] →
  ∃ l' w', iteration get_data verbose l w = (Continue l', w') ∧ sized l'.
Proof.
  unfold iteration, sized. intros Hs Hgot Hne.
  destruct (get_data (before l) w) as [[got'|e] w1]; simpl in Hgot; [|done].
  injection Hgot as ->.
  destruct (last (data l ++ got)) as [r|] eqn:Hl.
  - destruct (Nat.eqb_spec (length (data l ++ got)) (data_size l))
      as [He|Hneq]; [|by eexists _, _].
    rewrite length_app in He. destruct got; [done|simpl in He; lia].
  - apply last_None, app_eq_nil in Hl. by destruct Hl.
Qed.

(** A fetcher that always returns rows keeps the loop going. *)
Lemma while_true_goes_on n : ∀ l w,
  (∀ c w, ∃ got, (get_data c w).1 = Ok got ∧ got ≠ []) →
  sized l →
  while_true n (iteration get_data verbose) l w = None.
Proof.
  induction n as [|n IH]; intros l w Hgd Hs; [done|]. simpl.
  destruct (Hgd (before l) w) as (got & Hgot & Hne).
  destruct (iteration_goes_on l w got Hs Hgot Hne) as (l' & w' & -> & Hs').
  by apply IH.
Qed.

(** What the loop prints, call by call. *)
Lemma while_true_stdout n : ∀ l w l' w',
  (∀ c, quiet (get_data c)) →
  while_true n (iteration get_data verbose) l w = Some (l', w') →
  stdout w' =
    stdout w ++ progress verbose (batch l) (length (data l))
                  (fetch_log get_data verbose n l w).
Proof.
  induction n as [|n IH]; intros l w l' w' Hq Hw; [done|].
  simpl in Hw |- *.
  pose proof (quiet_stdout (get_data (before l)) w (Hq _)) as Hout.
  unfold iteration in *.
  destruct (get_data (before l) w) as [[got|e] w1]; simpl in *.
  - rewrite <- length_app.
    destruct (last (data l ++ got)) as [r|] eqn:Hl.
    + assert (Nat.eqb (length (data l ++ got)) 0 = false) as ->.
      { apply Nat.eqb_neq. intros H0. apply length_zero_iff_nil in H0.
        by rewrite H0 in Hl. }
      destruct (Nat.eqb (length (data l ++ got)) (data_size l)).
      * injection Hw as <- <-. rewrite app_nil_r.
        destruct verbose; simpl; by rewrite Hout, ?app_nil_r.
      * rewrite (IH _ _ _ _ Hq Hw). simpl.
        destruct verbose; simpl; by rewrite Hout, <- ?app_assoc.
    + injection Hw as <- <-. apply last_None in Hl. rewrite Hl. simpl.
      by rewrite Hout.
  - injection Hw as <- <-. simpl. by rewrite Hout.
Qed.

End AnyFetcher.

(** The requests of a loop whose fetcher sends one request per call. *)
Lemma while_true_requests get_data verbose
    (req_of : RedditLoader → value → request) n : ∀ l w l' w',
  (∀ c w, (get_data c w).2 = sent w [req_of (self w) c]) →
  while_true n (iteration get_data verbose) l w = Some (l', w') →
  self w' = self w ∧
  net w' = net w ++ (req_of (self w) <$> (fetch_log get_data verbose n l w).*1).
Proof.
  induction n as [|n IH]; intros l w l' w' Hone Hw; [done|].
  simpl in Hw |- *. pose proof (Hone (before l) w) as Hsent.
  unfold iteration in *.
  destruct (get_data (before l) w) as [[got|e] w1]; simpl in *; subst w1.
  - destruct (last (data l ++ got)) as [r|].
    + destruct (Nat.eqb (length (data l ++ got)) (data_size l)).
      * injection Hw as <- <-. by destruct verbose.
      * apply IH in Hw as [Hs Hn]; [|done].
        rewrite Hs, Hn.
        destruct verbose; simpl; by rewrite <- app_assoc.
    + by injection Hw as <- <-.
  - by injection Hw as <- <-.
Qed.

(** X6: a crawl of posts sends one request per pass of its loop and no
    other: the GET of the listing with [limit] 100, [raw_json] 1 and the
    cursor of that pass as [before] when the cursor is truthy. *)
Theorem post_crawl_requests n subreddit sort_by verbose w r w' :
  get_all_data upstream n "post" subreddit sort_by verbose w = Some (r, w') →
  net w' =
    net w ++
    (post_request (headers (self w)) subreddit sort_by (VInt 100) <$>
       (crawl_log upstream n "post" subreddit sort_by verbose w).*1) ∧
  length (net w') =
    (length (net w) +
     length (crawl_log upstream n "post" subreddit sort_by verbose w))%nat.
Proof.
  unfold get_all_data, crawl_log. simpl.
  destruct (while_true _ _ _ _) as [[l1 w1]|] eqn:Hw; [|done].
  intros [= _ <-].
  apply (while_true_requests _ verbose
           (λ o c, post_request (headers o) subreddit sort_by (VInt 100) c))
    in Hw as [Hs Hn]; [|intros c w0; by rewrite post_fetch_run].
  assert (net w1 =
            net w ++
            (post_request (headers (self w)) subreddit sort_by (VInt 100) <$>
               (fetch_log
                  (get_single_batch_post_from_reddit upstream subreddit
                     sort_by (VInt 100)) verbose n loop_entry
                  (announce verbose w)).*1)) as Hnet
    by (rewrite Hn; by destruct verbose).
  split; [done|]. by rewrite Hnet, length_app, !length_fmap.
Qed.

(** X7: the table of a crawl holds the batches of its calls one after the
    other, in the order of the calls; nothing is removed, a row fetched
    twice is there twice. *)
Theorem rows_in_call_order n type get_data subreddit sort_by verbose w r w' :
  select_get_data upstream type = Some get_data →
  get_all_data upstream n type subreddit sort_by verbose w = Some (r, w') →
  ∃ cols,
    r = Ok {| columns := cols;
              rows := all_fetched
                        (crawl_log upstream n type subreddit sort_by verbose w)
           |}.
Proof.
  unfold get_all_data, crawl_log. intros Hsel. rewrite Hsel.
  destruct (make_dataframe_selected _ _ _ Hsel) as [cols Hmk].
  destruct (while_true _ _ _ _) as [[l1 w1]|] eqn:Hw; [|done].
  rewrite Hmk. intros [= <- _].
  destruct (while_true_log _ verbose n _ _ _ _ sized_entry Hw)
    as (tr & c & o & Hlog & _ & _ & Hdata).
  exists cols. by rewrite Hlog, Hdata.
Qed.

(** X8: with a valid mode, [get_all_data] returns within [n] passes exactly
    when one of its first [n] calls raises or returns no row. *)
Theorem returns_iff_a_call_ends n type get_data subreddit sort_by verbose w :
  select_get_data upstream type = Some get_data →
  is_Some (get_all_data upstream n type subreddit sort_by verbose w) ↔
  ∃ k c o,
    crawl_log upstream n type subreddit sort_by verbose w !! k = Some (c, o) ∧
    ends_crawl o.
Proof.
  intros Hsel. split.
  - intros [rw Hrun]. revert Hrun. unfold get_all_data, crawl_log.
    rewrite Hsel.
    destruct (while_true _ _ _ _) as [[l1 w1]|] eqn:Hw; [|done]. intros _.
    destruct (while_true_log _ verbose n _ _ _ _ sized_entry Hw)
      as (tr & c & o & Hlog & Ho & _).
    exists (length tr), c, o. split; [|done].
    rewrite Hlog. by rewrite lookup_app_r, Nat.sub_diag.
  - intros (k & c & o & Hk & Ho).
    destruct (crawl_leaves _ _ _ _ _ _ _ _ _ _ Hk Ho)
      as (cols & w' & tr & Hrun & _).
    by rewrite Hrun.
Qed.

(** X9: against a listing whose every page holds at least one sound post,
    a crawl of posts does not return, however many passes it is given: the
    loop has no other way out than an empty page or an exception. *)
Theorem post_crawl_goes_on subreddit sort_by verbose w :
  (∀ i, ∃ posts rs,
     listed (upstream i) = Ok posts ∧
     Forall2 (λ post r, post_row post = Ok r) posts rs ∧ posts ≠ []) →
  ∀ n, get_all_data upstream n "post" subreddit sort_by verbose w = None.
Proof.
  intros Hpages n. unfold get_all_data. simpl.
  rewrite (while_true_goes_on _ verbose n); [done| |apply sized_entry].
  intros c w0. destruct (Hpages (length (net w0))) as (posts & rs & Hl & Hr & Hne).
  exists rs. rewrite post_fetch_run, Hl. simpl.
  rewrite (post_rows_all _ _ Hr). split; [done|].
  intros ->. apply Forall2_length in Hr. by destruct posts.
Qed.

(** X10: what a crawl prints.  With [verbose], the announcement and then,
    for each call that left rows in the table, its number and the running
    total of rows; without it, nothing for such a call.  In both cases an
    exception of a call is printed, and so is the [IndexError] of a first
    call that returned no row. *)
Theorem crawl_output n type get_data subreddit sort_by verbose w r w' :
  select_get_data upstream type = Some get_data →
  get_all_data upstream n type subreddit sort_by verbose w = Some (r, w') →
  stdout w' =
    stdout w ++
    (if verbose then [Text "Getting data..."] else []) ++
    progress verbose 0 0
      (crawl_log upstream n type subreddit sort_by verbose w).
Proof.
  unfold get_all_data, crawl_log. intros Hsel. rewrite Hsel.
  destruct (while_true _ _ _ _) as [[l1 w1]|] eqn:Hw; [|done].
  intros [= Hrun]. pose proof (make_dataframe_pure type (data l1) w1) as Hp.
  rewrite Hrun in Hp. simpl in Hp. subst w'.
  apply while_true_stdout in Hw;
    [|intros c; by apply (quiet_selected upstream type)].
  rewrite Hw. simpl. destruct verbose; simpl; [|done].
  by rewrite <- app_assoc.
Qed.

End CrawlMore.

(** ** Building the loader *)

Section Building.

Context (upstream : nat → result response)
        (json_file : string → result value).

(** X11: with complete credentials and a token endpoint that answers a
    string at [access_token], building the loader succeeds whatever the
    status of the identity check.  Two requests go out: the POST of the
    token exchange, with the credentials and [User-Agent] alone, then the
    GET of the identity check with the bearer header; the loader holds the
    credentials and the two headers, and the success line is printed for
    status 200 only. *)
Theorem init_builds_loader path w cfg client_id secret_token username
    password res body token me :
  json_file path = Ok cfg →
  getitem cfg "client_id" = Ok client_id →
  getitem cfg "secret_token" = Ok secret_token →
  getitem cfg "username" = Ok username →
  getitem cfg "password" = Ok password →
  upstream (length (net w)) = Ok res →
  json res = Ok body →
  getitem body "access_token" = Ok (VStr token) →
  upstream (S (length (net w))) = Ok me →
  __init__ upstream json_file path w =
    (Ok tt,
     {| self := {| config := cfg; headers := bearer_headers token |};
        net := net w ++
               [token_request client_id secret_token username password;
                me_request (bearer_headers token)];
        stdout := stdout w ++
                  (if (status_code me =? 200)%Z
                   then [Text "Success authenticated"] else []) |}).
Proof.
  intros Hfile Hid Hsec Huser Hpw Hup Hjson Htok Hme.
  unfold __init__, get_token, requests_post, requests_get, send, bind, lift,
    get_self, set_self, print, raise, ret. simpl.
  rewrite Hfile. simpl. rewrite Hid, Hsec, Huser, Hpw, Hup, Hjson. simpl.
  rewrite Htok. simpl. rewrite length_app. simpl. rewrite Nat.add_1_r, Hme.
  unfold token_request, me_request, bearer_headers.
  destruct (status_code me =? 200)%Z; simpl;
    by rewrite <- ?app_assoc, ?app_nil_r.
Qed.

(** X12: when the credentials are an object that lacks one of the four
    keys, building the loader raises [KeyError] for a missing key before
    any request goes out. *)
Theorem init_missing_credential path w fields k :
  json_file path = Ok (VDict fields) →
  k ∈ credential_keys →
  dict_get k fields = None →
  ∃ k' w',
    __init__ upstream json_file path w = (Raise (KeyError (VStr k')), w') ∧
    k' ∈ credential_keys ∧ dict_get k' fields = None ∧
    net w' = net w ∧ stdout w' = stdout w.
Proof.
  intros Hfile Hk Hmiss.
  unfold __init__, get_token, requests_post, send, bind, lift, get_self,
    set_self. simpl. rewrite Hfile. simpl.
  destruct (dict_get "client_id" fields) eqn:H1; simpl;
    [|exists "client_id"; eexists; repeat split;
      [unfold credential_keys; rewrite !elem_of_cons; tauto|done]].
  destruct (dict_get "secret_token" fields) eqn:H2; simpl;
    [|exists "secret_token"; eexists; repeat split;
      [unfold credential_keys; rewrite !elem_of_cons; tauto|done]].
  destruct (dict_get "username" fields) eqn:H3; simpl;
    [|exists "username"; eexists; repeat split;
      [unfold credential_keys; rewrite !elem_of_cons; tauto|done]].
  destruct (dict_get "password" fields) eqn:H4; simpl;
    [|exists "password"; eexists; repeat split;
      [unfold credential_keys; rewrite !elem_of_cons; tauto|done]].
  unfold credential_keys in Hk.
  repeat (apply elem_of_cons in Hk as [->|Hk]; [congruence|]).
  by apply elem_of_nil in Hk.
Qed.

(** X13: a granted token does not yet build the loader.  A token that is
    no string raises [TypeError] after the token exchange, and an identity
    check whose transfer fails raises that failure after both requests;
    only the status of an answered check is ignored. *)
Theorem init_after_token path w cfg client_id secret_token username
    password res body token :
  json_file path = Ok cfg →
  getitem cfg "client_id" = Ok client_id →
  getitem cfg "secret_token" = Ok secret_token →
  getitem cfg "username" = Ok username →
  getitem cfg "password" = Ok password →
  upstream (length (net w)) = Ok res →
  json res = Ok body →
  getitem body "access_token" = Ok token →
  ((∀ t, token ≠ VStr t) →
   ∃ w', __init__ upstream json_file path w = (Raise TypeError, w') ∧
         net w' =
           net w ++ [token_request client_id secret_token username password]) ∧
  (∀ t e, token = VStr t → upstream (S (length (net w))) = Raise e →
   ∃ w', __init__ upstream json_file path w = (Raise e, w') ∧
         net w' =
           net w ++ [token_request client_id secret_token username password;
                     me_request (bearer_headers t)]).
Proof.
  intros Hfile Hid Hsec Huser Hpw Hup Hjson Htok. split.
  - intros Hno.
    unfold __init__, get_token, requests_post, requests_get, send, bind, lift,
      get_self, set_self, print, raise, ret. simpl.
    rewrite Hfile. simpl. rewrite Hid, Hsec, Huser, Hpw, Hup, Hjson. simpl.
    rewrite Htok. simpl.
    destruct token; simpl; try by eexists. by destruct (Hno s).
  - intros t e -> Hme.
    unfold __init__, get_token, requests_post, requests_get, send, bind, lift,
      get_self, set_self, print, raise, ret. simpl.
    rewrite Hfile. simpl. rewrite Hid, Hsec, Huser, Hpw, Hup, Hjson. simpl.
    rewrite Htok. simpl. rewrite length_app. simpl. rewrite Nat.add_1_r, Hme.
    eexists. split; [done|]. simpl. by rewrite <- app_assoc.
Qed.

End Building.

(** ** Saving *)

Section Saved.

Context (upstream : nat → result response)
        (json_file : string → result value)
        (writable : string → bool).

(** X14: [save_data] writes what the crawl has gathered and reports no
    failure, also when the crawl was cut short by an exception: once a call
    of the crawl raises or returns no row, the file at [path] holds the
    rows of the calls before it and every other file is as it was. *)
Theorem save_data_writes n type subreddit sort_by path verbose w disk k c o :
  crawl_log upstream n type subreddit sort_by verbose w !! k = Some (c, o) →
  ends_crawl o →
  writable path = true →
  ∃ df w',
    save_data upstream writable n type subreddit sort_by path verbose w disk
      = Some (Ok tt, (w', <[path := df]> disk)) ∧
    rows df =
      all_fetched (crawl_log upstream n type subreddit sort_by verbose w) ∧
    ∀ p, p ≠ path → (<[path := df]> disk) !! p = disk !! p.
Proof.
  intros Hk Ho Hw.
  destruct (crawl_leaves _ _ _ _ _ _ _ _ _ _ Hk Ho)
    as (cols & w' & tr & Hrun & Hlog & _).
  unfold save_data, to_csv. rewrite Hrun, Hw. simpl.
  eexists _, w'. split; [done|]. split.
  - simpl. rewrite Hlog. unfold all_fetched. rewrite flat_map_app. simpl.
    by rewrite app_nil_r.
  - intros p Hp. by rewrite lookup_insert_ne.
Qed.


End Saved.

(** ** The further properties on the sample scripts *)

Lemma post_fetch_rows_witness :
  get_single_batch_post_from_reddit two_then_empty "askreddit" "new"
    (VInt 100) (VStr "t3_z") ready
  = (Ok [{| col0 := VStr "t3_a"; col1 := VStr "A"; col2 := VStr "x" |};
         {| col0 := VStr "t3_b"; col1 := VStr "B"; col2 := VStr "" |}],
     sent ready [post_request (headers (self ready)) "askreddit" "new"
                   (VInt 100) (VStr "t3_z")]) ∧
  length [{| col0 := VStr "t3_a"; col1 := VStr "A"; col2 := VStr "x" |};
          {| col0 := VStr "t3_b"; col1 := VStr "B"; col2 := VStr "" |}]
    = length [post_item "t3_a" "A" "x" "a"; post_item "t3_b" "B" "" "b"] ∧
  params (post_request (headers (self ready)) "askreddit" "new" (VInt 100)
            (VStr "t3_z")) !! "before" = Some (VStr "t3_z").
Proof.
  apply (post_fetch_rows two_then_empty "askreddit" "new" (VInt 100)
           (VStr "t3_z") ready
           [post_item "t3_a" "A" "x" "a"; post_item "t3_b" "B" "" "b"]).
  - reflexivity.
  - repeat constructor.
Defined.

Lemma post_fetch_spoiled_witness :
  get_single_batch_post_from_reddit page_with_bare_item "askreddit" "new"
    (VInt 100) VNone ready
  = (Raise (KeyError (VStr "selftext")),
     sent ready [post_request (headers (self ready)) "askreddit" "new"
                   (VInt 100) VNone]).
Proof.
  apply (post_fetch_spoiled page_with_bare_item "askreddit" "new" (VInt 100)
           VNone ready [post_item "t3_a" "A" "x" "a"] (bare_item "t3_b" "B")
           [post_item "t3_c" "C" "z" "c"]).
  - reflexivity.
  - repeat constructor. by eexists.
  - reflexivity.
Defined.

Lemma post_fetch_no_listing_witness :
  get_single_batch_post_from_reddit throttled "askreddit" "new" (VInt 100)
    VNone ready
  = (Raise (KeyError (VStr "data")),
     sent ready [post_request (headers (self ready)) "askreddit" "new"
                   (VInt 100) VNone]).
Proof.
  apply (proj1 (proj2 (proj2 (post_fetch_no_listing throttled "askreddit"
                                "new" (VInt 100) VNone ready)))
           {| status_code := 429;
              json := Ok (VDict [("message", VStr "Too Many Requests");
                                 ("error", VInt 429)]) |}
           [("message", VStr "Too Many Requests"); ("error", VInt 429)]);
    reflexivity.
Defined.

Lemma comment_fetch_fails_witness :
  get_single_batch_post_comment_from_reddit comments_then_refusal "askreddit"
    "top" (VInt 100) VNone ready =
    (Raise RequestException,
     sent ready
       (top_request (headers (self ready)) "askreddit" (VInt 100) VNone ::
        (comments_request (headers (self ready)) "top" <$>
           [{| post_name := VStr "t3_a"; post_title := VStr "A";
               post_id := VStr "a" |}] ++
           [{| post_name := VStr "t3_b"; post_title := VStr "B";
               post_id := VStr "b" |}]))).
Proof.
  apply (comment_fetch_fails comments_then_refusal "askreddit" "top"
           (VInt 100) VNone ready
           [post_item "t3_a" "A" "x" "a"] (post_item "t3_b" "B" "" "b") []
           [{| post_name := VStr "t3_a"; post_title := VStr "A";
               post_id := VStr "a" |}]
           {| post_name := VStr "t3_b"; post_title := VStr "B";
              post_id := VStr "b" |}
           [[comment_item "first"]]).
  - reflexivity.
  - repeat constructor; eexists; repeat split; reflexivity.
  - eexists; repeat split; reflexivity.
  - reflexivity.
  - intros [|i] cs; simpl; intros [= <-]. split; [reflexivity|].
    repeat constructor; eexists; reflexivity.
  - reflexivity.
Defined.

Lemma requests_are_fetches_witness :
  ∃ r w',
    get_all_data two_posts_with_comments 5 "comment" "askreddit" "top" false
      ready = Some (r, w') ∧
    only_fetches ready w'.
Proof.
  eexists _, _. split; [vm_compute; reflexivity|].
  eapply (proj2 (proj2 (requests_are_fetches two_posts_with_comments
                          "askreddit" "top" (VInt 100) VNone ready))
            5%nat "comment" false).
  vm_compute; reflexivity.
Defined.

Lemma post_crawl_requests_witness :
  ∃ r w',
    get_all_data two_then_empty 5 "post" "askreddit" "new" false ready
      = Some (r, w') ∧
    net w' =
      net ready ++
      (post_request (headers (self ready)) "askreddit" "new" (VInt 100) <$>
         (crawl_log two_then_empty 5 "post" "askreddit" "new" false ready).*1) ∧
    length (net w') =
      (length (net ready) +
       length (crawl_log two_then_empty 5 "post" "askreddit" "new" false
                 ready))%nat.
Proof.
  eexists _, _. split; [vm_compute; reflexivity|].
  eapply (post_crawl_requests two_then_empty 5 "askreddit" "new" false ready).
  vm_compute; reflexivity.
Defined.

Lemma rows_in_call_order_witness :
  ∃ r w' cols,
    get_all_data repeating 5 "post" "askreddit" "new" false ready
      = Some (r, w') ∧
    r = Ok {| columns := cols;
              rows := all_fetched
                        (crawl_log repeating 5 "post" "askreddit" "new" false
                           ready) |} ∧
    all_fetched (crawl_log repeating 5 "post" "askreddit" "new" false ready)
      = [{| col0 := VStr "t3_a"; col1 := VStr "A"; col2 := VStr "x" |};
         {| col0 := VStr "t3_a"; col1 := VStr "A"; col2 := VStr "x" |}].
Proof.
  destruct (get_all_data repeating 5 "post" "askreddit" "new" false ready)
    as [[r w']|] eqn:Hrun; [|vm_compute in Hrun; discriminate].
  destruct (rows_in_call_order repeating 5 "post"
              (get_single_batch_post_from_reddit repeating) "askreddit" "new"
              false ready r w' eq_refl Hrun) as [cols Hr].
  exists r, w', cols. split; [done|]. split; [done|].
  vm_compute; reflexivity.
Defined.

Lemma returns_iff_a_call_ends_witness :
  is_Some (get_all_data two_then_empty 1 "post" "askreddit" "new" false ready)
  ↔ ∃ k c o,
      crawl_log two_then_empty 1 "post" "askreddit" "new" false ready !! k
        = Some (c, o) ∧ ends_crawl o.
Proof.
  apply (returns_iff_a_call_ends two_then_empty 1 "post"
           (get_single_batch_post_from_reddit two_then_empty) "askreddit"
           "new" false ready eq_refl).
Defined.

Lemma post_crawl_goes_on_witness :
  get_all_data same_page_forever 50 "post" "askreddit" "new" false ready
    = None.
Proof.
  apply (post_crawl_goes_on same_page_forever "askreddit" "new" false ready).
  intros i. exists [post_item "t3_a" "A" "x" "a"].
  eexists. split; [reflexivity|]. split; [|done]. repeat constructor.
Defined.

Lemma crawl_output_witness :
  ∃ r w',
    get_all_data two_then_empty 5 "post" "askreddit" "new" true ready
      = Some (r, w') ∧
    stdout w' =
      stdout ready ++ [Text "Getting data..."] ++
      progress true 0 0
        (crawl_log two_then_empty 5 "post" "askreddit" "new" true ready) ∧
    progress true 0 0
      (crawl_log two_then_empty 5 "post" "askreddit" "new" true ready)
      = [Text "Batch 1 complete, loaded 2 posts.";
         Text "Batch 2 complete, loaded 2 posts."].
Proof.
  eexists _, _. split; [vm_compute; reflexivity|]. split.
  - eapply (crawl_output two_then_empty 5 "post"
              (get_single_batch_post_from_reddit two_then_empty) "askreddit"
              "new" true ready _ _ eq_refl).
    vm_compute; reflexivity.
  - vm_compute; reflexivity.
Defined.

Lemma init_builds_loader_witness :
  __init__ unverified credentials_file "reddit_cred.json" blank =
    (Ok tt,
     {| self := {| config := credentials; headers := bearer_headers "t0k3n" |};
        net := net blank ++
               [token_request (VStr "id") (VStr "secret") (VStr "user")
                  (VStr "pass");
                me_request (bearer_headers "t0k3n")];
        stdout := stdout blank ++ [] |}).
Proof.
  apply (init_builds_loader unverified credentials_file "reddit_cred.json"
           blank credentials (VStr "id") (VStr "secret") (VStr "user")
           (VStr "pass")
           {| status_code := 200;
              json := Ok (VDict [("access_token", VStr "t0k3n");
                                 ("token_type", VStr "bearer")]) |}
           (VDict [("access_token", VStr "t0k3n");
                   ("token_type", VStr "bearer")])
           "t0k3n"
           {| status_code := 403; json := Ok (VDict [("error", VInt 403)]) |});
    reflexivity.
Defined.

Lemma init_missing_credential_witness :
  ∃ k' w',
    __init__ granting incomplete_file "reddit_cred.json" blank
      = (Raise (KeyError (VStr k')), w') ∧
    k' ∈ credential_keys ∧
    dict_get k' [("client_id", VStr "id"); ("secret_token", VStr "secret");
                 ("username", VStr "user")] = None ∧
    net w' = net blank ∧ stdout w' = stdout blank.
Proof.
  apply (init_missing_credential granting incomplete_file "reddit_cred.json"
           blank _ "password").
  - reflexivity.
  - unfold credential_keys. rewrite !elem_of_cons. tauto.
  - reflexivity.
Defined.

Lemma init_after_token_witness :
  ∃ w',
    __init__ check_fails credentials_file "reddit_cred.json" blank
      = (Raise RequestException, w') ∧
    net w' =
      net blank ++
      [token_request (VStr "id") (VStr "secret") (VStr "user") (VStr "pass");
       me_request (bearer_headers "t0k3n")].
Proof.
  apply (proj2 (init_after_token check_fails credentials_file
                  "reddit_cred.json" blank credentials (VStr "id")
                  (VStr "secret") (VStr "user") (VStr "pass")
                  {| status_code := 200;
                     json := Ok (VDict [("access_token", VStr "t0k3n");
                                        ("token_type", VStr "bearer")]) |}
                  (VDict [("access_token", VStr "t0k3n");
                          ("token_type", VStr "bearer")])
                  (VStr "t0k3n")
                  eq_refl eq_refl eq_refl eq_refl eq_refl eq_refl eq_refl
                  eq_refl)
           "t0k3n" RequestException); reflexivity.
Defined.

Lemma save_data_writes_witness :
  ∃ df w',
    save_data three_then_error (λ _, true) 5 "post" "askreddit" "new"
      "askreddit.csv" false ready ∅
      = Some (Ok tt, (w', <["askreddit.csv" := df]> ∅)) ∧
    rows df =
      all_fetched
        (crawl_log three_then_error 5 "post" "askreddit" "new" false ready) ∧
    ∀ p, p ≠ "askreddit.csv" →
         (<["askreddit.csv" := df]> (∅ : gmap string DataFrame)) !! p
           = (∅ : gmap string DataFrame) !! p.
Proof.
  apply (save_data_writes three_then_error (λ _, true) 5 "post" "askreddit"
           "new" "askreddit.csv" false ready ∅ 1 (VStr "t3_c")
           (Raise RequestException));
    [vm_compute; reflexivity|exact I|reflexivity].
Defined.


(** * The chatbot *)

(** ** Splitting and replacing *)

Section ChatStrings.

Import Chat.

Lemma starts_with_spec p s : starts_with p s = true ↔ ∃ r, s = p ++ r.
Proof.
  revert s. induction p as [|x p IH]; intros s; simpl.
  - split; [eauto|done].
  - destruct s as [|y s]; [split; [done|by intros [r Hr]]|].
    rewrite andb_true_iff, N.eqb_eq, IH. split.
    + intros [-> [r ->]]. eauto.
    + intros [r [= -> ->]]. eauto.
Qed.

Lemma replace_from_elem x k old s :
  x ∈ replace_from k old [] s → x ∈ s.
Proof.
  revert k. induction s as [|c s IH]; intros k; simpl; [done|].
  destruct k as [|k].
  - destruct (starts_with old (c :: s)); simpl.
    + intros Hin. right. by eapply IH.
    + intros [->|Hin]%elem_of_cons; [left|right; by eapply IH].
  - intros Hin. right. by eapply IH.
Qed.

Lemma replace_one_gone x s : x ∉ replace [x] [] s.
Proof.
  unfold replace. induction s as [|c s IH]; simpl; [apply not_elem_of_nil|].
  destruct (N.eqb_spec x c) as [->|Hne]; simpl; [done|].
  rewrite not_elem_of_cons. done.
Qed.

Lemma replace_twin_gone x : ∀ s,
  no_twin x (replace_from 0 [x; x] [] s) ∧
  no_twin x (replace_from 1 [x; x] [] s).
Proof.
  induction s as [|c s [IH0 IH1]]; [done|]. split; [|done].
  cbn [replace_from]. 
  destruct (starts_with [x; x] (c :: s)) eqn:Hst; [done|].
  destruct s as [|d s]; [done|].
  revert IH0 Hst. cbn [replace_from].
  destruct (starts_with [x; x] (d :: s)) eqn:Hst2.
  - (* the rest starts with a pair that goes away *)
    simpl in Hst2. destruct (N.eqb_spec x d) as [->|]; [|done].
    simpl. rewrite N.eqb_refl. simpl.
    destruct (N.eqb_spec d c) as [->|Hne]; [done|].
    intros IH0 _. simpl in *.
    destruct (replace_from 1 [d; d] [] s) as [|b t] eqn:Hr; [done|].
    split; [|done]. intros [-> _]. done.
  - intros IH0 Hst. simpl. split; [|done].
    intros [-> ->]. simpl in Hst. by rewrite N.eqb_refl in Hst.
Qed.

Lemma no_twin_no_pair x s l1 l2 : no_twin x s → s ≠ l1 ++ [x; x] ++ l2.
Proof.
  revert s. induction l1 as [|a l1 IH]; intros s Hs ->; simpl in Hs.
  - by destruct Hs as [[] _].
  - destruct (l1 ++ x :: x :: l2) as [|b t] eqn:Ht.
    + by destruct l1.
    + destruct Hs as [_ Hs]. by apply (IH (b :: t)).
Qed.

Lemma until_gone x s : x ∉ until x s.
Proof.
  induction s as [|c s IH]; simpl; [apply not_elem_of_nil|].
  destruct (N.eqb_spec x c); [apply not_elem_of_nil|].
  by rewrite not_elem_of_cons.
Qed.

Lemma split_one_head x : ∀ s cur,
  head (split_from 0 [x] cur s) = Some (cur ++ until x s).
Proof.
  induction s as [|c s IH]; intros cur; simpl.
  - by rewrite app_nil_r.
  - destruct (N.eqb x c); simpl; [by rewrite app_nil_r|].
    by rewrite IH, <- app_assoc.
Qed.

End ChatStrings.

Section LastPiece.

Import Chat.

Lemma split_from_plain x sep' : ∀ c cur,
  x ∉ c → split_from 0 (x :: sep') cur c = [cur ++ c].
Proof.
  induction c as [|d c IH]; intros cur Hx; simpl.
  - by rewrite app_nil_r.
  - apply not_elem_of_cons in Hx as [Hd Hc].
    destruct (N.eqb_spec x d) as [->|_]; [done|]. simpl.
    by rewrite IH, <- app_assoc.
Qed.

Lemma split_from_pass sep : ∀ t r cur,
  split_from (length t) sep cur (t ++ r) = split_from 0 sep cur r.
Proof. induction t as [|a t IH]; intros r cur; [done|]. simpl. apply IH. Qed.

Lemma last_cons_some {A} (a : A) l y : last l = Some y → last (a :: l) = Some y.
Proof. intros Hl. by rewrite last_cons, Hl. Qed.

Lemma elem_of_drop_inv {A} (x : A) n : ∀ l, x ∈ drop n l → x ∈ l.
Proof.
  induction n as [|n IH]; intros l; [done|].
  destruct l as [|a l]; [done|]. simpl. intros Hin. right. by apply IH.
Qed.

Lemma drop_cons_next {A} (a : A) t : ∀ m l, drop m l = a :: t → drop (S m) l = t.
Proof.
  induction m as [|m IH]; intros l.
  - rewrite drop_0. intros ->. simpl. by rewrite drop_0.
  - destruct l as [|b l]; [done|]. simpl. apply IH.
Qed.

Lemma split_from_last x sep' c :
  x ∉ sep' → x ∉ c →
  ∀ A k cur,
    (k ≤ length sep')%nat →
    take k (A ++ (x :: sep') ++ c) = drop (S (length sep') - k) (x :: sep') →
    last (split_from k (x :: sep') cur (A ++ (x :: sep') ++ c)) = Some c.
Proof.
  intros Hsep Hc. induction A as [|a A IH]; intros k cur Hk Htake.
  - destruct k as [|k].
    + simpl. rewrite N.eqb_refl. simpl.
      assert (starts_with sep' (sep' ++ c) = true) as ->
        by (apply starts_with_spec; eauto).
      rewrite Nat.sub_0_r, split_from_pass, split_from_plain by done.
      done.
    + exfalso.
      replace (S (length sep') - S k)%nat with (S (length sep' - S k))%nat
        in Htake by lia.
      simpl in Htake. apply Hsep.
      apply (elem_of_drop_inv x (length sep' - S k)). rewrite <- Htake. left.
  - change ((a :: A) ++ (x :: sep') ++ c)
      with (a :: (A ++ (x :: sep') ++ c)) in *.
    remember (A ++ (x :: sep') ++ c) as rest eqn:Hrest.
    destruct k as [|k].
    + cbn [split_from].
      destruct (starts_with (x :: sep') (a :: rest)) eqn:Hst.
      * apply last_cons_some.
        replace (length (x :: sep') - 1)%nat with (length sep')
          by (simpl; lia).
        apply IH; [done|].
        apply starts_with_spec in Hst as [r Hr]. simpl in Hr.
        injection Hr as -> Hr. rewrite Hr.
        replace (S (length sep') - length sep')%nat with 1%nat by lia.
        simpl. by rewrite take_app_length, drop_0.
      * apply IH; [lia|]. rewrite take_0. symmetry. apply drop_ge.
        simpl. lia.
    + cbn [split_from]. apply IH; [lia|].
      rewrite firstn_cons in Htake. symmetry in Htake.
      apply drop_cons_next in Htake.
      rewrite <- Htake. f_equal. lia.
Qed.

End LastPiece.

Section ChatBot.

Import Chat.

Context (isspace : N → bool) (chatbot : str → nat → result str).

(** X16: whatever the pipeline generates, the reply of [generate_reply]
    holds no line feed, no no-break space and no two blanks in a row, and
    the history of the bot grows by exactly the user's turn and the
    reply. *)
Theorem reply_is_clean text self reply self' :
  generate_reply isspace chatbot text self = (Ok reply, self') →
  (newline ∉ reply) ∧ (nbsp ∉ reply) ∧
  (∀ l1 l2, reply ≠ l1 ++ [space; space] ++ l2) ∧
  chat_history self' =
    chat_history self ++ (lit "###" ++ [newline] ++ lit "[User]: ") ++ text
    ++ ([newline] ++ lit "[EdgeGPT]: ") ++ reply.
Proof.
  unfold generate_reply.
  destruct (chatbot _ _) as [response|e]; [|done].
  set (piece := default [] (last (split (lit "[EdgeGPT]: ") response))).
  unfold split. rewrite !split_one_head.
  change (default [] (Some ([] ++ until newline piece)))
    with (until newline piece).
  set (prompt := chat_history self ++ _).
  intros Heq.
  assert (reply = replace (lit "  ") [] (replace [nbsp] [] (until newline piece)))
    as -> by congruence.
  assert (self' = {| chat_history := prompt ++ replace (lit "  ") []
                      (replace [nbsp] [] (until newline piece)) |})
    as -> by congruence.
  clear Heq. unfold replace. split; [|split; [|split]].
  - intros Hin. do 2 apply replace_from_elem in Hin.
    by apply until_gone in Hin.
  - intros Hin. apply replace_from_elem in Hin.
    by apply (replace_one_gone nbsp) in Hin.
  - intros l1 l2. apply no_twin_no_pair.
    apply (replace_twin_gone space).
  - cbn [chat_history]. unfold prompt. by rewrite <- !app_assoc.
Qed.

(** X17: when the pipeline repeats the prompt and goes on with a text
    that holds no opening bracket, the reply is the first line of that
    text, its no-break spaces and then its pairs of blanks removed. *)
Theorem reply_of_echo text self cont :
  let prompt :=
    chat_history self ++ (lit "###" ++ [newline] ++ lit "[User]: ") ++ text
    ++ ([newline] ++ lit "[EdgeGPT]: ") in
  chatbot prompt (4 * count_words isspace false prompt) = Ok (prompt ++ cont) →
  91%N ∉ cont →
  (generate_reply isspace chatbot text self).1 =
    Ok (replace (lit "  ") [] (replace [nbsp] [] (until newline cont))).
Proof.
  intros prompt Hgen Hcont. unfold generate_reply. fold prompt.
  rewrite Hgen. cbn [fst]. do 3 f_equal.
  assert (last (split (lit "[EdgeGPT]: ") (prompt ++ cont)) = Some cont) as ->.
  { assert (91%N ∉ lit "EdgeGPT]: ") as Hsep.
    { intros Hin. unfold lit in Hin. cbn [list_ascii_of_string fmap list_fmap] in Hin.
      repeat (apply elem_of_cons in Hin as [Hin|Hin];
              [by vm_compute in Hin|]).
      by apply elem_of_nil in Hin. }
    pose proof (split_from_last 91%N (lit "EdgeGPT]: ") cont Hsep Hcont
                  (chat_history self
                   ++ (lit "###" ++ [newline] ++ lit "[User]: ") ++ text
                   ++ [newline]) 0%nat [] ltac:(lia)) as Hlast.
    unfold split, prompt. rewrite <- !app_assoc in Hlast |- *.
    apply Hlast. by rewrite take_0, drop_ge by (vm_compute; lia). }
  unfold split. by rewrite split_one_head.
Qed.

End ChatBot.

(** ** The chatbot on a sample pipeline *)

Lemma reply_is_clean_witness :
  ∃ self',
    Chat.generate_reply blank_or_newline
      (echo_then (Chat.lit "I am  so" ++ [Chat.nbsp] ++ Chat.lit "sad."
                  ++ [Chat.newline] ++ Chat.lit "[User]: Why?"))
      (Chat.lit "How are you?") Chat.__init__
    = (Ok (Chat.lit "I amsosad."), self') ∧
    (Chat.newline ∉ Chat.lit "I amsosad.") ∧
    (Chat.nbsp ∉ Chat.lit "I amsosad.") ∧
    (∀ l1 l2,
       Chat.lit "I amsosad." ≠ l1 ++ [Chat.space; Chat.space] ++ l2) ∧
    Chat.chat_history self' =
      Chat.chat_history Chat.__init__
      ++ (Chat.lit "###" ++ [Chat.newline] ++ Chat.lit "[User]: ")
      ++ Chat.lit "How are you?"
      ++ ([Chat.newline] ++ Chat.lit "[EdgeGPT]: ") ++ Chat.lit "I amsosad.".
Proof.
  eexists. split; [vm_compute; reflexivity|].
  eapply (reply_is_clean blank_or_newline
            (echo_then (Chat.lit "I am  so" ++ [Chat.nbsp] ++ Chat.lit "sad."
                        ++ [Chat.newline] ++ Chat.lit "[User]: Why?"))
            (Chat.lit "How are you?") Chat.__init__).
  vm_compute; reflexivity.
Defined.

Lemma reply_of_echo_witness :
  (Chat.generate_reply blank_or_newline
     (echo_then (Chat.lit "So   sad." ++ [Chat.newline] ++ Chat.lit "###"))
     (Chat.lit "How are you?") Chat.__init__).1
  = Ok (Chat.replace (Chat.lit "  ") []
          (Chat.replace [Chat.nbsp] []
             (until Chat.newline
                (Chat.lit "So   sad." ++ [Chat.newline] ++ Chat.lit "###")))).
Proof.
  apply (reply_of_echo blank_or_newline
           (echo_then (Chat.lit "So   sad." ++ [Chat.newline]
                       ++ Chat.lit "###"))
           (Chat.lit "How are you?") Chat.__init__
           (Chat.lit "So   sad." ++ [Chat.newline] ++ Chat.lit "###")).
  - reflexivity.
  - intros Hin. vm_compute in Hin.
    repeat (apply elem_of_cons in Hin as [Hin|Hin]; [discriminate|]).
    by apply elem_of_nil in Hin.
Defined.
